(** * find_meetings.py: the batch/chunk mitigation engine

    A shallow embedding of the partitioner ([batch_attendees]), the date-range
    chunker ([chunk_dates]), the external-call wrapper
    ([call_findmeetingtimes]), the aggregator ([run_mitigation]) and the
    configuration loader ([load_test_attendees]) of [find_meetings.py],
    together with the properties the design document states about them.

    Conventions.  Python [int] is [Z].  A Python [str] is a [string] whose
    characters are code points below 256.  A naive [datetime] is the number of
    microseconds elapsed since [datetime.min]; the bounds of the type and the
    [OverflowError] of its arithmetic are kept.  A call that may raise returns
    an [outcome]; the [while] loop of the chunker runs on fuel, and running
    out of fuel stands for a loop that has not finished yet. *)

From Stdlib Require Import ZArith List String Ascii Bool Lia QArith.
From Stdlib Require Import DecimalString.
Import ListNotations.

#[local] Set Warnings "-register-all".

Local Open Scope string_scope.
Local Open Scope Z_scope.

(** ** Python runtime: exceptions, outcomes, ranges, slices *)

Module Py.

(** An instance of [Exception]: its class name, the HTTP status the Graph
    SDK attaches to API errors ([response_status_code]) and [str(e)]. *)
Record exn : Type := mkExn {
  exn_class : string;
  exn_status : option Z;
  exn_str : string
}.

Inductive outcome (A : Type) : Type :=
| Ok (a : A)
| Raise (e : exn)
| OutOfFuel.
Arguments Ok {A} a.
Arguments Raise {A} e.
Arguments OutOfFuel {A}.

Definition bind {A B} (c : outcome A) (k : A -> outcome B) : outcome B :=
  match c with
  | Ok a => k a
  | Raise e => Raise e
  | OutOfFuel => OutOfFuel
  end.

Definition ValueError (msg : string) : exn := mkExn "ValueError" None msg.
Definition OverflowError (msg : string) : exn := mkExn "OverflowError" None msg.
Definition AttributeError (msg : string) : exn := mkExn "AttributeError" None msg.
Definition KeyError (msg : string) : exn := mkExn "KeyError" None msg.

Definition len {A} (l : list A) : Z := Z.of_nat (List.length l).

(** [len(range(lo, hi, step))] for a non-zero step. *)
Definition range_len (lo hi step : Z) : Z :=
  if 0 <? step
  then (if lo <? hi then (hi - 1 - lo) / step + 1 else 0)
  else (if hi <? lo then (lo - 1 - hi) / (- step) + 1 else 0).

(** [range(lo, hi, step)], which raises [ValueError] on a zero step. *)
Definition range (lo hi step : Z) : outcome (list Z) :=
  if step =? 0
  then Raise (ValueError "range() arg 3 must not be zero")
  else Ok (map (fun k => lo + Z.of_nat k * step)
               (seq 0 (Z.to_nat (range_len lo hi step)))).

(** Index adjustment of a slice bound: negative bounds count from the end,
    and every bound is clipped to [0 .. len]. *)
Definition adjust_index (n i : Z) : Z :=
  if i <? 0 then Z.max 0 (i + n) else Z.min i n.

(** [l[i:j]] *)
Definition slice {A} (l : list A) (i j : Z) : list A :=
  let lo := adjust_index (len l) i in
  let hi := adjust_index (len l) j in
  firstn (Z.to_nat (hi - lo)) (skipn (Z.to_nat lo) l).

(** [min(a, b)]: the first argument unless the second is smaller. *)
Definition min (a b : Z) : Z := if b <? a then b else a.

End Py.

Import Py.

Declare Scope py_scope.
Delimit Scope py_scope with py.
Notation "x <- c ;; k" := (Py.bind c (fun x => k))
  (at level 61, c at next level, right associativity) : py_scope.
Local Open Scope py_scope.

(** ** The attendee partitioner *)

(** [[attendees[i:i + batch_size] for i in range(0, len(attendees), batch_size)]] *)
Definition batch_attendees (attendees : list string) (batch_size : Z)
  : outcome (list (list string)) :=
  idx <- range 0 (len attendees) batch_size ;;
  Ok (map (fun i => slice attendees i (i + batch_size)) idx).

(** ** Naive datetimes *)

Module DateTime.

(** A naive [datetime], as microseconds since [datetime.min]
    (0001-01-01T00:00:00); [datetime.max] is 9999-12-31T23:59:59.999999. *)
Definition datetime : Type := Z.

(** A [timedelta], in microseconds. *)
Definition timedelta : Type := Z.

Definition US_PER_SECOND : Z := 1000000.
Definition US_PER_DAY : Z := 86400 * US_PER_SECOND.
Definition MAX_ORDINAL : Z := 3652059.
Definition MAX_DELTA_DAYS : Z := 999999999.
Definition datetime_max : datetime := MAX_ORDINAL * US_PER_DAY - 1.

Definition in_range (t : Z) : bool := (0 <=? t) && (t <=? datetime_max).

(** Decimal rendering of an [int], as [str(n)] gives it. *)
Definition str_of_int (n : Z) : string := NilZero.string_of_int (Z.to_int n).

(** [timedelta(days=d)] *)
Definition timedelta_days (d : Z) : outcome timedelta :=
  if Z.abs d <=? MAX_DELTA_DAYS
  then Ok (d * US_PER_DAY)
  else Raise (OverflowError
                ("days=" ++ str_of_int d ++ "; must have magnitude <= 999999999")).

(** [t + d], which raises [OverflowError] outside [datetime.min .. datetime.max]. *)
Definition add (t : datetime) (d : timedelta) : outcome datetime :=
  if in_range (t + d)
  then Ok (t + d)
  else Raise (OverflowError "date value out of range").

Definition is_leap (y : Z) : bool :=
  (y mod 4 =? 0) && (negb (y mod 100 =? 0) || (y mod 400 =? 0)).

Definition days_before_year (y : Z) : Z :=
  let p := y - 1 in p * 365 + p / 4 - p / 100 + p / 400.

Definition days_in_month (y m : Z) : Z :=
  if (m =? 2) && is_leap y then 29
  else nth (Z.to_nat m) [0; 31; 28; 31; 30; 31; 30; 31; 31; 30; 31; 30; 31] 0.

Definition days_before_month (y m : Z) : Z :=
  nth (Z.to_nat m) [0; 0; 31; 59; 90; 120; 151; 181; 212; 243; 273; 304; 334] 0
  + (if (2 <? m) && is_leap y then 1 else 0).

Definition ymd2ord (y m d : Z) : Z :=
  days_before_year y + days_before_month y m + d.

(** [datetime(y, m, d)]: midnight of a calendar day, with the constructor's
    range checks. *)
Definition of_date (y m d : Z) : outcome datetime :=
  if negb ((1 <=? y) && (y <=? 9999))
  then Raise (ValueError ("year " ++ str_of_int y ++ " is out of range"))
  else if negb ((1 <=? m) && (m <=? 12))
  then Raise (ValueError "month must be in 1..12")
  else if negb ((1 <=? d) && (d <=? days_in_month y m))
  then Raise (ValueError "day is out of range for month")
  else Ok ((ymd2ord y m d - 1) * US_PER_DAY).

(** Proleptic Gregorian ordinal to (year, month, day). *)
Definition ord2ymd (ordinal : Z) : Z * Z * Z :=
  let n := ordinal - 1 in
  let n400 := n / 146097 in
  let n := n mod 146097 in
  let n100 := n / 36524 in
  let n := n mod 36524 in
  let n4 := n / 1461 in
  let n := n mod 1461 in
  let n1 := n / 365 in
  let n := n mod 365 in
  let year := n400 * 400 + 1 + n100 * 100 + n4 * 4 + n1 in
  if (n1 =? 4) || (n100 =? 4) then (year - 1, 12, 31)
  else
    let month := Z.shiftr (n + 50) 5 in
    let preceding := days_before_month year month in
    if n <? preceding
    then (year, month - 1,
          n - (preceding - days_in_month year (month - 1)) + 1)
    else (year, month, n - preceding + 1).

Definition pad (width : nat) (n : Z) : string :=
  let s := str_of_int n in
  string_of_list_ascii
    (repeat "0"%char (width - String.length s)) ++ s.

(** [t.isoformat()] *)
Definition isoformat (t : datetime) : string :=
  let '(y, m, d) := ord2ymd (t / US_PER_DAY + 1) in
  let us := t mod US_PER_DAY in
  let secs := us / US_PER_SECOND in
  let frac := us mod US_PER_SECOND in
  pad 4 y ++ "-" ++ pad 2 m ++ "-" ++ pad 2 d ++ "T"
  ++ pad 2 (secs / 3600) ++ ":" ++ pad 2 (secs / 60 mod 60) ++ ":"
  ++ pad 2 (secs mod 60)
  ++ (if frac =? 0 then "" else "." ++ pad 6 frac).

End DateTime.

Import DateTime.

(** ** The date-range chunker *)

(** The [while current < end] loop; [chunks] is the list built so far. *)
Fixpoint chunk_loop (fuel : nat) (chunks : list (datetime * datetime))
  (current end_ : datetime) (days : Z) : outcome (list (datetime * datetime)) :=
  match fuel with
  | O => OutOfFuel
  | S fuel' =>
      if current <? end_ then
        delta <- timedelta_days days ;;
        next <- DateTime.add current delta ;;
        let chunk_end := Py.min next end_ in
        chunk_loop fuel' (chunks ++ [(current, chunk_end)]) chunk_end end_ days
      else Ok chunks
  end.

Definition chunk_dates (fuel : nat) (start end_ : datetime) (days : Z)
  : outcome (list (datetime * datetime)) :=
  chunk_loop fuel [] start end_ days.

(** ** Python values that cross the engine's boundary *)

(** Dictionaries keep their insertion order; a [float] is carried by the
    rational it was computed from. *)
Inductive pyval : Type :=
| VNone
| VBool (b : bool)
| VInt (z : Z)
| VFloat (q : Q)
| VStr (s : string)
| VList (l : list pyval)
| VDict (d : list (string * pyval)).

Fixpoint assoc (k : string) (d : list (string * pyval)) : option pyval :=
  match d with
  | [] => None
  | (k', v) :: d' => if String.eqb k k' then Some v else assoc k d'
  end.

(** [d[k]] *)
Definition getitem (d : pyval) (k : string) : outcome pyval :=
  match d with
  | VDict kv =>
      match assoc k kv with
      | Some v => Ok v
      | None => Raise (KeyError k)
      end
  | _ => Raise (mkExn "TypeError" None "object is not subscriptable")
  end.

(** [v == n] for an [int] literal [n]. *)
Definition eq_int (v : pyval) (n : Z) : bool :=
  match v with
  | VInt z => z =? n
  | VBool b => (if b then 1 else 0) =? n
  | VFloat q => Qeq_bool q (inject_Z n)
  | _ => false
  end.

(** [a / b] on two [int]s. *)
Definition truediv (a b : Z) : outcome pyval :=
  if b =? 0
  then Raise (mkExn "ZeroDivisionError" None "division by zero")
  else Ok (VFloat (a # Z.to_pos b)).

(** ** The Graph SDK objects the wrapper builds and reads *)

Record RequestBody : Type := mkRequest {
  rb_attendees : list string;        (* one Required attendee per address *)
  rb_slot_start : string;            (* time_slots = [one slot], zone "UTC" *)
  rb_slot_end : string;
  rb_time_zone : string;
  rb_activity_domain : string;
  rb_meeting_duration : string;
  rb_max_candidates : Z;
  rb_is_organizer_optional : bool
}.

Record DateTimeTimeZone : Type := mkDateTimeTimeZone {
  date_time : pyval;
  time_zone : pyval
}.

Record TimeSlot : Type := mkTimeSlot {
  slot_start : option DateTimeTimeZone;
  slot_end : option DateTimeTimeZone
}.

Record MeetingTimeSuggestion : Type := mkSuggestion {
  confidence : pyval;
  organizer_availability : pyval;
  meeting_time_slot : option TimeSlot
}.

Record Response : Type := mkResponse {
  meeting_time_suggestions : option (list MeetingTimeSuggestion);
  empty_suggestions_reason : pyval
}.

(** What [await client.me.find_meeting_times.post(body)] does: it returns a
    response object (or [None]) or raises an [Exception]. *)
Inductive reply : Type :=
| Returns (r : option Response)
| Throws (e : exn).

Definition no_attribute (name : string) : exn :=
  AttributeError ("'NoneType' object has no attribute '" ++ name ++ "'").

Definition time_entry (t : DateTimeTimeZone) : pyval :=
  VDict [("dateTime", date_time t); ("timeZone", time_zone t)].

(** One element of the ["meetingTimeSuggestions"] comprehension. *)
Definition suggestion_entry (item : MeetingTimeSuggestion) : outcome pyval :=
  match meeting_time_slot item with
  | None => Raise (no_attribute "start")
  | Some slot =>
      match slot_start slot with
      | None => Raise (no_attribute "date_time")
      | Some t0 =>
          match slot_end slot with
          | None => Raise (no_attribute "date_time")
          | Some t1 =>
              Ok (VDict [("confidence", confidence item);
                         ("organizerAvailability", organizer_availability item);
                         ("meetingTimeSlot",
                          VDict [("start", time_entry t0); ("end", time_entry t1)])])
          end
      end
  end.

Fixpoint suggestion_entries (items : list MeetingTimeSuggestion)
  : outcome (list pyval) :=
  match items with
  | [] => Ok []
  | item :: rest =>
      v <- suggestion_entry item ;;
      vs <- suggestion_entries rest ;;
      Ok (v :: vs)
  end.

(** The dictionary of the normal [return]. *)
Definition success_result (result : Response) : outcome pyval :=
  items <- suggestion_entries
             (match meeting_time_suggestions result with
              | Some l => l
              | None => []
              end) ;;
  Ok (VDict [("status", VInt 200);
             ("data", VDict [("meetingTimeSuggestions", VList items);
                             ("emptySuggestionsReason",
                              empty_suggestions_reason result)])]).

(** The dictionary of the [except Exception as e] handler. *)
Definition failure_result (e : exn) : pyval :=
  VDict [("status", VInt 500); ("data", VStr (exn_str e))].

Definition build_request (attendees : list string) (start end_ : string)
  (duration max_candidates : Z) : RequestBody :=
  {| rb_attendees := attendees;
     rb_slot_start := start;
     rb_slot_end := end_;
     rb_time_zone := "UTC";
     rb_activity_domain := "unrestricted";
     rb_meeting_duration := "PT" ++ str_of_int duration ++ "M";
     rb_max_candidates := max_candidates;
     rb_is_organizer_optional := true |}.

(** ** String helpers of the configuration loader *)

(** [c.isspace()] on a code point below 256. *)
Definition isspace (c : ascii) : bool :=
  let n := Z.of_N (N_of_ascii c) in
  ((9 <=? n) && (n <=? 13)) || ((28 <=? n) && (n <=? 32))
  || (n =? 133) || (n =? 160).

Fixpoint lstrip (s : string) : string :=
  match s with
  | EmptyString => EmptyString
  | String c s' => if isspace c then lstrip s' else s
  end.

Fixpoint rstrip (s : string) : string :=
  match s with
  | EmptyString => EmptyString
  | String c s' =>
      match rstrip s' with
      | EmptyString => if isspace c then EmptyString else String c EmptyString
      | r => String c r
      end
  end.

(** [s.strip()] *)
Definition strip (s : string) : string := rstrip (lstrip s).

(** [s.split(sep)] for a one-character separator. *)
Fixpoint split (sep : ascii) (s : string) : list string :=
  match s with
  | EmptyString => [EmptyString]
  | String c s' =>
      if Ascii.eqb c sep then EmptyString :: split sep s'
      else match split sep s' with
           | [] => [String c EmptyString]
           | h :: t => String c h :: t
           end
  end.

(** Truth value of a [str]. *)
Definition nonempty (s : string) : bool := negb (String.eqb s "").

(** ** The external call and the aggregator *)

(** A run owns the remote service's state and, as a ghost field, the list of
    request bodies posted so far. *)
Record session (World : Type) : Type := mkSession {
  world : World;
  issued : list RequestBody
}.
Arguments mkSession {World} world issued.
Arguments world {World} s.
Arguments issued {World} s.

(** Effectful code: a session goes in, a session and an outcome come out. *)
Definition run (World A : Type) : Type :=
  session World -> session World * outcome A.

Definition ret {World A} (a : A) : run World A := fun s => (s, Ok a).

Definition lift {World A} (c : outcome A) : run World A := fun s => (s, c).

Definition rbind {World A B} (c : run World A) (k : A -> run World B)
  : run World B :=
  fun s =>
    match c s with
    | (s', Ok a) => k a s'
    | (s', Raise e) => (s', Raise e)
    | (s', OutOfFuel) => (s', OutOfFuel)
    end.

(** [try: body  except Exception as e: return handler(e)] *)
Definition try_except {World A} (body : run World A) (handler : exn -> A)
  : run World A :=
  fun s =>
    match body s with
    | (s', Raise e) => (s', Ok (handler e))
    | r => r
    end.

Declare Scope run_scope.
Delimit Scope run_scope with run.
Bind Scope run_scope with run.
Notation "x <- c ;; k" := (rbind c (fun x => k))
  (at level 61, c at next level, right associativity) : run_scope.
Arguments lift {World A} c%_py.

(** The counters and the list [run_mitigation] keeps while it loops. *)
Record tally : Type := mkTally {
  results : list pyval;
  successful : Z;
  failed : Z
}.

(** [results.append(result)] and the [if result["status"] == 200] update. *)
Definition record_result (t : tally) (result : pyval) : outcome tally :=
  status <- getitem result "status" ;;
  Ok (if eq_int status 200
      then mkTally (results t ++ [result]) (successful t + 1) (failed t)
      else mkTally (results t ++ [result]) (successful t) (failed t + 1)).

Section Engine.

Variable World : Type.

(** The remote service behind [client.me.find_meeting_times.post]. *)
Variable post : World -> RequestBody -> World * reply.

(** The [save_debug] block: it rebuilds the raw response, writes
    [raw_api_response.json] and prints; it may raise. *)
Variable save_raw : World -> Response -> World * option exn.

(** The write of [api_result.json] in [reproduce_bad_gateway]. *)
Variable save_result : World -> pyval -> World * option exn.

(** The process environment read by [os.getenv]. *)
Variable environ : string -> option string.

Definition do_post (body : RequestBody) : run World (option Response) :=
  fun s =>
    let (w, r) := post (world s) body in
    (mkSession w (issued s ++ [body]),
     match r with Returns result => Ok result | Throws e => Raise e end).

Definition do_save_raw (result : option Response) : run World unit :=
  fun s =>
    match result with
    | None => (s, Raise (no_attribute "empty_suggestions_reason"))
    | Some r =>
        let (w, e) := save_raw (world s) r in
        (mkSession w (issued s),
         match e with Some e => Raise e | None => Ok tt end)
    end.

(** The body of the [try] block of [call_findmeetingtimes]. *)
Definition call_body (attendees : list string) (start end_ : string)
  (duration max_candidates : Z) (save_debug : bool) : run World pyval :=
  (result <- do_post (build_request attendees start end_ duration max_candidates) ;;
   _ <- (if save_debug then do_save_raw result else ret tt) ;;
   match result with
   | None => lift (Raise (no_attribute "meeting_time_suggestions"))
   | Some r => lift (success_result r)
   end)%run.

Definition call_findmeetingtimes (attendees : list string) (start end_ : string)
  (duration max_candidates : Z) (save_debug : bool) : run World pyval :=
  try_except
    (call_body attendees start end_ duration max_candidates save_debug)
    failure_result.

(** [for chunk_start, chunk_end in chunks: ...] for one batch. *)
Fixpoint for_chunks (batch : list string) (chunks : list (datetime * datetime))
  (duration max_candidates : Z) (t : tally) : run World tally :=
  match chunks with
  | [] => ret t
  | (chunk_start, chunk_end) :: rest =>
      (result <- call_findmeetingtimes batch
                   (isoformat chunk_start) (isoformat chunk_end)
                   duration max_candidates false ;;
       t' <- lift (record_result t result) ;;
       for_chunks batch rest duration max_candidates t')%run
  end.

(** [for batch in batches: ...] *)
Fixpoint for_batches (batches : list (list string))
  (chunks : list (datetime * datetime)) (duration max_candidates : Z)
  (t : tally) : run World tally :=
  match batches with
  | [] => ret t
  | batch :: rest =>
      (t' <- for_chunks batch chunks duration max_candidates t ;;
       for_batches rest chunks duration max_candidates t')%run
  end.

(** The dictionary [run_mitigation] returns. *)
Definition report (t : tally) : outcome pyval :=
  rate <- match results t with
          | [] => Ok (VInt 0)
          | _ :: _ => truediv (successful t) (len (results t))
          end ;;
  Ok (VDict [("total_calls", VInt (len (results t)));
             ("successful", VInt (successful t));
             ("failed", VInt (failed t));
             ("success_rate", rate);
             ("results", VList (results t))]).

Definition run_mitigation (fuel : nat) (attendees : list string)
  (start end_ : datetime) (batch_size days_per_chunk duration max_candidates : Z)
  : run World pyval :=
  (batches <- lift (batch_attendees attendees batch_size) ;;
   chunks <- lift (chunk_dates fuel start end_ days_per_chunk) ;;
   t <- for_batches batches chunks duration max_candidates (mkTally [] 0 0) ;;
   lift (report t))%run.

(** ** Configuration and the two drivers that reach the remote service *)

(** [os.getenv(name, default)] *)
Definition getenv (name default : string) : string :=
  match environ name with
  | Some v => v
  | None => default
  end.

Definition load_test_attendees : outcome (list string) :=
  let raw_value := getenv "TEST_ATTENDEES" "" in
  let attendees :=
    map strip (filter (fun item => nonempty (strip item)) (split "," raw_value)) in
  match attendees with
  | [] => Raise (ValueError
                   "TEST_ATTENDEES is required. Provide a comma-separated list in .env.")
  | _ :: _ => Ok attendees
  end.

Definition do_save_result (result : pyval) : run World unit :=
  fun s =>
    let (w, e) := save_result (world s) result in
    (mkSession w (issued s),
     match e with Some e => Raise e | None => Ok tt end).

(** The arguments are evaluated left to right before the call is made;
    the prints are left out except for the keys they read. *)
Definition reproduce_bad_gateway : run World pyval :=
  (attendees <- lift load_test_attendees ;;
   start <- lift (of_date 2026 1 29) ;;
   end_ <- lift (of_date 2026 12 30) ;;
   result <- call_findmeetingtimes attendees (isoformat start) (isoformat end_)
               10 1600 true ;;
   _ <- do_save_result result ;;
   _ <- lift (getitem result "status") ;;
   ret result)%run.

Definition test_mitigation_effectiveness (fuel : nat) : run World pyval :=
  (attendees <- lift load_test_attendees ;;
   start <- lift (of_date 2026 1 29) ;;
   end_ <- lift (of_date 2026 2 28) ;;
   result <- run_mitigation fuel attendees start end_ 5 3 60 50 ;;
   _ <- lift (getitem result "total_calls") ;;
   _ <- lift (getitem result "successful") ;;
   _ <- lift (getitem result "failed") ;;
   _ <- lift (getitem result "success_rate") ;;
   ret result)%run.

End Engine.

Arguments do_post {World} post body s.
Arguments call_body {World} post save_raw attendees start end_ duration max_candidates save_debug s.
Arguments call_findmeetingtimes {World} post save_raw attendees start end_ duration max_candidates save_debug s.
Arguments for_chunks {World} post save_raw batch chunks duration max_candidates t s.
Arguments for_batches {World} post save_raw batches chunks duration max_candidates t s.
Arguments run_mitigation {World} post save_raw fuel attendees start end_ batch_size days_per_chunk duration max_candidates s.
Arguments reproduce_bad_gateway {World} post save_raw save_result environ s.
Arguments test_mitigation_effectiveness {World} post save_raw environ fuel s.

(** ** Closed forms used by the statements *)

(** How many chunks a non-empty interval is cut into: the ceiling of its
    length over the chunk length. *)
Definition chunk_count (start end_ : datetime) (days : Z) : Z :=
  (end_ - start - 1) / (days * US_PER_DAY) + 1.

(** The [i]-th chunk boundary: [i] chunk lengths after [start], clipped to
    [end_]. *)
Definition boundary (start end_ : datetime) (days : Z) (i : nat) : datetime :=
  Py.min (start + Z.of_nat i * (days * US_PER_DAY)) end_.

(** The grid of call units, partition-major and chunk-minor. *)
Definition call_units {B C} (batches : list B) (chunks : list C) : list (B * C) :=
  flat_map (fun batch => map (fun chunk => (batch, chunk)) chunks) batches.

(** Whether a call result carries status 200. *)
Definition status_is_200 (result : pyval) : bool :=
  match getitem result "status" with
  | Ok status => eq_int status 200
  | _ => false
  end.

(** How many of the results carry status 200. *)
Definition count_ok (rs : list pyval) : Z :=
  len (filter status_is_200 rs).

(** The request body posted for one call unit. *)
Definition unit_request (duration max_candidates : Z)
  (u : list string * (datetime * datetime)) : RequestBody :=
  build_request (fst u) (isoformat (fst (snd u))) (isoformat (snd (snd u)))
                duration max_candidates.

(** One call unit served on its own: the wrapper's result for it. *)
Definition call_unit {World} (post : World -> RequestBody -> World * reply)
  (save_raw : World -> Response -> World * option exn)
  (duration max_candidates : Z) (u : list string * (datetime * datetime))
  (s : session World) : session World * pyval :=
  match call_body post save_raw (fst u) (isoformat (fst (snd u)))
                  (isoformat (snd (snd u))) duration max_candidates false s with
  | (s', Ok v) => (s', v)
  | (s', Raise e) => (s', failure_result e)
  | (s', OutOfFuel) => (s', VNone)
  end.

(** A list of call units served one after the other, in list order. *)
Fixpoint serve {World} (post : World -> RequestBody -> World * reply)
  (save_raw : World -> Response -> World * option exn)
  (duration max_candidates : Z) (units : list (list string * (datetime * datetime)))
  (s : session World) : session World * list pyval :=
  match units with
  | [] => (s, [])
  | u :: rest =>
      let (s1, r) := call_unit post save_raw duration max_candidates u s in
      let (s2, rs) := serve post save_raw duration max_candidates rest s1 in
      (s2, r :: rs)
  end.

(** The tally after the results [rs] have been recorded on top of [t]. *)
Definition tally_after (t : tally) (rs : list pyval) : tally :=
  mkTally (results t ++ rs)
          (successful t + count_ok rs)
          (failed t + (len rs - count_ok rs)).

(** The dictionary [run_mitigation] builds from the list of results. *)
Definition report_of (rs : list pyval) : pyval :=
  VDict [("total_calls", VInt (len rs));
         ("successful", VInt (count_ok rs));
         ("failed", VInt (len rs - count_ok rs));
         ("success_rate",
          if len rs =? 0 then VInt 0
          else VFloat (count_ok rs # Z.to_pos (len rs)));
         ("results", VList rs)].

(** ** A sample remote service

    Every second call is answered with a 502 error; the others return an
    empty list of suggestions.  The state counts the calls. *)

Definition bad_gateway : exn := mkExn "ODataError" (Some 502) "Bad Gateway".

Definition flaky_post (w : nat) (body : RequestBody) : nat * reply :=
  (S w,
   if Nat.even w
   then Returns (Some (mkResponse (Some []) (VStr "Unknown")))
   else Throws bad_gateway).

Definition quiet_save_raw (w : nat) (r : Response) : nat * option exn := (w, None).

Definition quiet_save_result (w : nat) (v : pyval) : nat * option exn := (w, None).

Definition fresh : session nat := mkSession 0%nat [].

Definition five_attendees : list string :=
  ["a@contoso.com"; "b@contoso.com"; "c@contoso.com"; "d@contoso.com";
   "e@contoso.com"].

Definition jan29 : datetime := 63905241600000000.
Definition feb28 : datetime := 63907833600000000.

Definition feb02 : datetime := 63905587200000000.

Definition sample_batches : list (list string) :=
  [["a@contoso.com"; "b@contoso.com"]; ["c@contoso.com"; "d@contoso.com"];
   ["e@contoso.com"]].

Definition sample_chunks : list (datetime * datetime) :=
  [(63905241600000000, 63905500800000000);
   (63905500800000000, 63905587200000000)].

Definition empty_environ (name : string) : option string :=
  if String.eqb name "TEST_ATTENDEES" then Some "" else None.

Definition missing_attendees : exn :=
  ValueError "TEST_ATTENDEES is required. Provide a comma-separated list in .env.".

(** A remote service that answers every call with the 502 error. *)
Definition down_post (w : nat) (body : RequestBody) : nat * reply :=
  (S w, Throws bad_gateway).

Definition participants25 : list string :=
  map (fun k => "user" ++ str_of_int (Z.of_nat k) ++ "@contoso.com")%string
      (seq 1 25).

(** ** Time slots ([generate_time_slots], find_meetings.py and create_events.py) *)

Definition US_PER_MINUTE : Z := 60 * US_PER_SECOND.
Definition US_PER_HOUR : Z := 60 * US_PER_MINUTE.

(** [t.replace(hour=0, minute=0, second=0, microsecond=0)] *)
Definition replace_midnight (t : datetime) : datetime := t - t mod US_PER_DAY.

(** [t.replace(hour=h, minute=m)]: the date, the seconds and the
    microseconds of [t] are kept. *)
Definition replace_hour_minute (t : datetime) (h m : Z) : outcome datetime :=
  if negb ((0 <=? h) && (h <=? 23))
  then Raise (ValueError "hour must be in 0..23")
  else if negb ((0 <=? m) && (m <=? 59))
  then Raise (ValueError "minute must be in 0..59")
  else Ok (replace_midnight t + h * US_PER_HOUR + m * US_PER_MINUTE
           + t mod US_PER_MINUTE).

(** [timedelta(minutes=m)] *)
Definition timedelta_minutes (m : Z) : outcome timedelta :=
  let us := m * US_PER_MINUTE in
  if Z.abs (us / US_PER_DAY) <=? MAX_DELTA_DAYS
  then Ok us
  else Raise (OverflowError
                ("days=" ++ str_of_int (us / US_PER_DAY)
                 ++ "; must have magnitude <= 999999999")).

(** [{"start": start_dt.isoformat(), "end": end_dt.isoformat()}] *)
Definition slot_entry (start_dt end_dt : datetime) : pyval :=
  VDict [("start", VStr (isoformat start_dt)); ("end", VStr (isoformat end_dt))].

(** [for start_hour in range(0, 24, 1): ...] for one day. *)
Fixpoint slots_of_hours (date : datetime) (slot_minutes : Z) (hours : list Z)
  (slots : list pyval) : outcome (list pyval) :=
  match hours with
  | [] => Ok slots
  | start_hour :: rest =>
      start_dt <- replace_hour_minute date start_hour 0 ;;
      delta <- timedelta_minutes slot_minutes ;;
      end_dt <- DateTime.add start_dt delta ;;
      slots_of_hours date slot_minutes rest (slots ++ [slot_entry start_dt end_dt])
  end.

(** [for day in range(num_days): ...] *)
Fixpoint slots_of_days (current : datetime) (slot_minutes : Z) (days : list Z)
  (slots : list pyval) : outcome (list pyval) :=
  match days with
  | [] => Ok slots
  | day :: rest =>
      delta <- timedelta_days day ;;
      date <- DateTime.add current delta ;;
      hours <- range 0 24 1 ;;
      slots' <- slots_of_hours date slot_minutes hours slots ;;
      slots_of_days current slot_minutes rest slots'
  end.

Definition generate_time_slots (start_date : datetime) (num_days slot_minutes : Z)
  : outcome (list pyval) :=
  let current := replace_midnight start_date in
  days <- range 0 num_days 1 ;;
  slots_of_days current slot_minutes days [].

(** The slot that starts [k] hours after midnight of the first day. *)
Definition slot_at (start_date : datetime) (slot_minutes : Z) (k : nat) : pyval :=
  slot_entry (replace_midnight start_date + Z.of_nat k * US_PER_HOUR)
             (replace_midnight start_date + Z.of_nat k * US_PER_HOUR
              + slot_minutes * US_PER_MINUTE).

(** ** Event creation ([create_test_events], create_events.py) *)

(** Effectful code over any state. *)
Definition eff (S A : Type) : Type := S -> S * outcome A.

Definition eret {S A} (a : A) : eff S A := fun s => (s, Ok a).

Definition elift {S A} (c : outcome A) : eff S A := fun s => (s, c).

Definition ebind {S A B} (c : eff S A) (k : A -> eff S B) : eff S B :=
  fun s =>
    match c s with
    | (s', Ok a) => k a s'
    | (s', Raise e) => (s', Raise e)
    | (s', OutOfFuel) => (s', OutOfFuel)
    end.

(** [try: body  except Exception: handler] *)
Definition etry {S A} (body : eff S A) (handler : exn -> eff S A) : eff S A :=
  fun s =>
    match body s with
    | (s', Raise e) => handler e s'
    | r => r
    end.

Declare Scope eff_scope.
Delimit Scope eff_scope with eff.
Bind Scope eff_scope with eff.
Notation "x <- c ;; k" := (ebind c (fun x => k))
  (at level 61, c at next level, right associativity) : eff_scope.
Arguments elift {S A} c%_py.

(** [a % b] on two [int]s. *)
Definition py_mod (a b : Z) : outcome Z :=
  if b =? 0
  then Raise (mkExn "ZeroDivisionError" None "integer modulo by zero")
  else Ok (a mod b).

(** The [Event] object that is posted. *)
Record Event : Type := mkEvent {
  ev_subject : string;
  ev_start : pyval;
  ev_start_zone : string;
  ev_end : pyval;
  ev_end_zone : string
}.

(** The calendars' state and, as a ghost field, the posts attempted so far:
    the user whose calendar is addressed and the event. *)
Record mailbox (World : Type) : Type := mkMailbox {
  mb_world : World;
  mb_posted : list (string * Event)
}.
Arguments mkMailbox {World} mb_world mb_posted.
Arguments mb_world {World} m.
Arguments mb_posted {World} m.

(** The two counters of [create_test_events]. *)
Record created_tally : Type := mkCreated {
  created : Z;
  errors : Z
}.

(** [f"{subject_prefix}{attendee.split('@')[0]}_{i}"] *)
Definition event_subject (subject_prefix attendee : string) (i : Z) : string :=
  subject_prefix ++ hd EmptyString (split "@" attendee) ++ "_" ++ str_of_int i.

Section CreateEvents.

Variable World : Type.

(** [client.users.by_user_id(attendee).events.post(event)] *)
Variable post_event : World -> string -> Event -> World * option exn.

Definition do_post_event (attendee : string) (event : Event)
  : eff (mailbox World) unit :=
  fun m =>
    let (w, e) := post_event (mb_world m) attendee event in
    (mkMailbox w (mb_posted m ++ [(attendee, event)]),
     match e with Some e => Raise e | None => Ok tt end).

(** The body of the [try] block for one slot. *)
Definition create_body (subject_prefix attendee : string) (i : Z) (slot : pyval)
  (t : created_tally) : eff (mailbox World) created_tally :=
  (start <- elift (getitem slot "start") ;;
   end_ <- elift (getitem slot "end") ;;
   _ <- do_post_event attendee
          (mkEvent (event_subject subject_prefix attendee i) start "UTC" end_ "UTC") ;;
   eret (mkCreated (created t + 1) (errors t)))%eff.

(** [for i, slot in enumerate(slots, start=1): ...], from index [i] on. *)
Fixpoint create_for_slots (subject_prefix attendee : string) (log_every : Z)
  (i : Z) (slots : list pyval) (t : created_tally)
  : eff (mailbox World) created_tally :=
  match slots with
  | [] => eret t
  | slot :: rest =>
      (t' <- etry (create_body subject_prefix attendee i slot t)
                  (fun _ => eret (mkCreated (created t) (errors t + 1))) ;;
       _ <- elift (py_mod i log_every) ;;
       create_for_slots subject_prefix attendee log_every (i + 1) rest t')%eff
  end.

(** [for attendee in attendees: ...] *)
Fixpoint create_for_attendees (subject_prefix : string) (log_every : Z)
  (attendees : list string) (slots : list pyval) (t : created_tally)
  : eff (mailbox World) created_tally :=
  match attendees with
  | [] => eret t
  | attendee :: rest =>
      (t' <- create_for_slots subject_prefix attendee log_every 1 slots t ;;
       create_for_attendees subject_prefix log_every rest slots t')%eff
  end.

(** The prints and the per-user counters they show are left out. *)
Definition create_test_events (attendees : list string) (slots : list pyval)
  (subject_prefix : string) (log_every : Z) : eff (mailbox World) pyval :=
  (t <- create_for_attendees subject_prefix log_every attendees slots
          (mkCreated 0 0) ;;
   eret (VDict [("created", VInt (created t)); ("errors", VInt (errors t))]))%eff.

End CreateEvents.

Arguments do_post_event {World} post_event attendee event m.
Arguments create_body {World} post_event subject_prefix attendee i slot t m.
Arguments create_for_slots {World} post_event subject_prefix attendee log_every i slots t m.
Arguments create_for_attendees {World} post_event subject_prefix log_every attendees slots t m.
Arguments create_test_events {World} post_event attendees slots subject_prefix log_every m.

(** The events posted for one attendee when every slot has its two keys. *)
Fixpoint planned_events (subject_prefix attendee : string) (i : Z)
  (slots : list pyval) : list (string * Event) :=
  match slots with
  | [] => []
  | slot :: rest =>
      match getitem slot "start", getitem slot "end" with
      | Ok start, Ok end_ =>
          [(attendee,
            mkEvent (event_subject subject_prefix attendee i) start "UTC" end_ "UTC")]
      | _, _ => []
      end ++ planned_events subject_prefix attendee (i + 1) rest
  end.

(** A calendar service that refuses every third post. *)
Definition picky_post_event (w : nat) (attendee : string) (event : Event)
  : nat * option exn :=
  (S w,
   if Nat.eqb (Nat.modulo w 3) 2
   then Some (mkExn "ODataError" (Some 429) "Too Many Requests")
   else None).

Definition empty_mailbox : mailbox nat := mkMailbox 0%nat [].


(** ** Event cleanup (cleanup_events.py) *)

(** [c.lower()] on a code point below 256. *)
Definition lower_char (c : ascii) : ascii :=
  let n := Z.of_N (N_of_ascii c) in
  if ((65 <=? n) && (n <=? 90))
     || ((192 <=? n) && (n <=? 222) && negb (n =? 215))
  then ascii_of_N (N_of_ascii c + 32)
  else c.

(** [s.lower()] *)
Fixpoint lower (s : string) : string :=
  match s with
  | EmptyString => EmptyString
  | String c s' => String (lower_char c) (lower s')
  end.

(** [needle in hay] *)
Fixpoint contains (needle hay : string) : bool :=
  String.prefix needle hay
  || match hay with
     | EmptyString => false
     | String _ hay' => contains needle hay'
     end.

Definition hex_digit (n : Z) : ascii :=
  nth (Z.to_nat n) (list_ascii_of_string "0123456789ABCDEF") "0"%char.

Definition percent (byte : Z) : string :=
  String "%" (String (hex_digit (byte / 16)) (String (hex_digit (byte mod 16)) "")).

(** Characters [urllib.parse.quote] never escapes, with its default safe ["/"]. *)
Definition quote_safe (c : ascii) : bool :=
  let n := Z.of_N (N_of_ascii c) in
  ((65 <=? n) && (n <=? 90)) || ((97 <=? n) && (n <=? 122))
  || ((48 <=? n) && (n <=? 57))
  || (n =? 95) || (n =? 46) || (n =? 45) || (n =? 126) || (n =? 47).

(** [quote(s)]: the other characters are percent-escaped, byte by byte of
    their UTF-8 encoding. *)
Fixpoint quote (s : string) : string :=
  match s with
  | EmptyString => EmptyString
  | String c s' =>
      let n := Z.of_N (N_of_ascii c) in
      (if quote_safe c then String c EmptyString
       else if n <? 128 then percent n
       else percent (192 + n / 64) ++ percent (128 + n mod 64))
      ++ quote s'
  end.

(** A calendar event as the cleanup reads it. *)
Record CalEvent : Type := mkCalEvent {
  ce_id : option string;
  ce_subject : option string
}.

(** One page of an [EventCollectionResponse]. *)
Record EventPage : Type := mkPage {
  page_value : option (list CalEvent);
  odata_next_link : option string
}.

Inductive page_reply : Type :=
| PageReturns (page : option EventPage)
| PageThrows (e : exn).

(** The three counters of [cleanup_test_events]. *)
Record cleanup_tally : Type := mkCleanup {
  total_deleted : Z;
  total_failed : Z;
  total_scanned : Z
}.

(** The service's state, the counters and, as ghost fields, the GET requests
    sent with their replies and the deletions requested. *)
Record cleaner (World : Type) : Type := mkCleaner {
  cl_world : World;
  cl_tally : cleanup_tally;
  cl_exchanges : list (string * page_reply);
  cl_deletions : list (string * CalEvent)
}.
Arguments mkCleaner {World} cl_world cl_tally cl_exchanges cl_deletions.
Arguments cl_world {World} c.
Arguments cl_tally {World} c.
Arguments cl_exchanges {World} c.
Arguments cl_deletions {World} c.

(** [_extend_events(page)] *)
Definition extend_events (all_events : list CalEvent) (page : option EventPage)
  : list CalEvent :=
  match page with
  | Some p =>
      match page_value p with
      | Some (e :: rest) => all_events ++ e :: rest
      | _ => all_events
      end
  | None => all_events
  end.

(** [getattr(events_page, "odata_next_link", None)] *)
Definition next_link_of (page : option EventPage) : option string :=
  match page with
  | Some p => odata_next_link p
  | None => None
  end.

(** The link a [while next_link:] goes on with, if any. *)
Definition live_link (next_link : option string) : option string :=
  match next_link with
  | Some url => if nonempty url then Some url else None
  | None => None
  end.

(** [e.subject and keyword_lower in e.subject.lower()] *)
Definition matches (keyword_lower : string) (e : CalEvent) : bool :=
  match ce_subject e with
  | Some subject => nonempty subject && contains keyword_lower (lower subject)
  | None => false
  end.

Definition events_url (user_id : string) : string :=
  "https://graph.microsoft.com/v1.0/users/" ++ quote user_id ++ "/events"
  ++ "?$select=id,subject&$top=1000".

Section Cleanup.

Variable World : Type.

(** [client.request_adapter.send_async(request_info, EventCollectionResponse, None)]
    for a GET of the given URL. *)
Variable send_async : World -> string -> World * page_reply.

(** [client.users.by_user_id(user_id).events.by_event_id(event_id).delete()] *)
Variable delete_event : World -> string -> option string -> World * option exn.

Definition do_send (url : string) : eff (cleaner World) (option EventPage) :=
  fun c =>
    let (w, r) := send_async (cl_world c) url in
    (mkCleaner w (cl_tally c) (cl_exchanges c ++ [(url, r)]) (cl_deletions c),
     match r with PageReturns page => Ok page | PageThrows e => Raise e end).

Definition do_delete (user_id : string) (event : CalEvent)
  : eff (cleaner World) unit :=
  fun c =>
    let (w, e) := delete_event (cl_world c) user_id (ce_id event) in
    (mkCleaner w (cl_tally c) (cl_exchanges c)
               (cl_deletions c ++ [(user_id, event)]),
     match e with Some e => Raise e | None => Ok tt end).

Definition update_tally (f : cleanup_tally -> cleanup_tally)
  : eff (cleaner World) unit :=
  fun c =>
    (mkCleaner (cl_world c) (f (cl_tally c)) (cl_exchanges c) (cl_deletions c),
     Ok tt).

(** The [while next_link:] loop of [_fetch_events_for_user]. *)
Fixpoint follow_links (fuel : nat) (all_events : list CalEvent)
  (next_link : option string) : eff (cleaner World) (list CalEvent) :=
  match live_link next_link with
  | None => eret all_events
  | Some url =>
      match fuel with
      | O => fun c => (c, OutOfFuel)
      | S fuel' =>
          (events_page <- do_send url ;;
           follow_links fuel' (extend_events all_events events_page)
                        (next_link_of events_page))%eff
      end
  end.

Definition _fetch_events_for_user (fuel : nat) (user_id : string)
  : eff (cleaner World) (list CalEvent) :=
  (events_page <- do_send (events_url user_id) ;;
   follow_links fuel (extend_events [] events_page)
                (next_link_of events_page))%eff.

(** [for event in matching_events: ...] *)
Fixpoint delete_matching (user_id : string) (matching_events : list CalEvent)
  : eff (cleaner World) unit :=
  match matching_events with
  | [] => eret tt
  | event :: rest =>
      (_ <- etry (_ <- do_delete user_id event ;;
                  update_tally (fun t => mkCleanup (total_deleted t + 1)
                                                   (total_failed t)
                                                   (total_scanned t)))
                 (fun _ => update_tally
                             (fun t => mkCleanup (total_deleted t)
                                                 (total_failed t + 1)
                                                 (total_scanned t))) ;;
       delete_matching user_id rest)%eff
  end.

(** The body of the loop over users, with its [try]. *)
Definition cleanup_user (fuel : nat) (keyword user_id : string)
  : eff (cleaner World) unit :=
  etry
    (all_events <- _fetch_events_for_user fuel user_id ;;
     match all_events with
     | [] => eret tt
     | _ :: _ =>
         _ <- update_tally (fun t => mkCleanup (total_deleted t) (total_failed t)
                                               (total_scanned t + len all_events)) ;;
         delete_matching user_id (filter (matches (lower keyword)) all_events)
     end)%eff
    (fun _ => eret tt).

Fixpoint cleanup_users (fuel : nat) (keyword : string) (user_list : list string)
  : eff (cleaner World) unit :=
  match user_list with
  | [] => eret tt
  | user_id :: rest =>
      (_ <- cleanup_user fuel keyword user_id ;;
       cleanup_users fuel keyword rest)%eff
  end.

(** The prints are left out. *)
Definition cleanup_test_events (fuel : nat) (attendees : list string)
  (keyword : string) : eff (cleaner World) pyval :=
  (_ <- update_tally (fun _ => mkCleanup 0 0 0) ;;
   _ <- cleanup_users fuel keyword attendees ;;
   fun c =>
     (c, Ok (VDict [("deleted", VInt (total_deleted (cl_tally c)));
                    ("failed", VInt (total_failed (cl_tally c)));
                    ("scanned", VInt (total_scanned (cl_tally c)))])))%eff.

End Cleanup.

Arguments do_send {World} send_async url c.
Arguments do_delete {World} delete_event user_id event c.
Arguments update_tally {World} f c.
Arguments follow_links {World} send_async fuel all_events next_link c.
Arguments _fetch_events_for_user {World} send_async fuel user_id c.
Arguments delete_matching {World} delete_event user_id matching_events c.
Arguments cleanup_user {World} send_async delete_event fuel keyword user_id c.
Arguments cleanup_users {World} send_async delete_event fuel keyword user_list c.
Arguments cleanup_test_events {World} send_async delete_event fuel attendees keyword c.

(** The events carried by a list of exchanges, page by page. *)
Definition exchanged_events (xs : list (string * page_reply)) : list CalEvent :=
  flat_map (fun x => match snd x with
                     | PageReturns page => extend_events [] page
                     | PageThrows _ => []
                     end) xs.

(** A run of GETs that starts at [url] and follows each page's next link;
    [final] is the link the last page leaves to follow, if any. *)
Fixpoint chain_to (url : string) (xs : list (string * page_reply))
  (final : option string) : Prop :=
  match xs with
  | [] => False
  | (u, r) :: rest =>
      u = url
      /\ exists page,
           r = PageReturns page
           /\ match rest with
              | [] => live_link (next_link_of page) = final
              | _ :: _ => exists url', live_link (next_link_of page) = Some url'
                                       /\ chain_to url' rest final
              end
  end.

(** A calendar with three pages of events for every user; the deletion of
    events without an id is refused. *)
Definition paged_send (w : nat) (url : string) : nat * page_reply :=
  (S w,
   if String.eqb url "page2"
   then PageReturns (Some (mkPage (Some [mkCalEvent None (Some "test_502 x");
                                         mkCalEvent (Some "e4") None])
                                  (Some "page3")))
   else if String.eqb url "page3"
   then PageReturns (Some (mkPage None (Some "")))
   else PageReturns (Some (mkPage (Some [mkCalEvent (Some "e1") (Some "TEST_502_a_1");
                                         mkCalEvent (Some "e2") (Some "Lunch")])
                                  (Some "page2")))).

Definition strict_delete (w : nat) (user_id : string) (event_id : option string)
  : nat * option exn :=
  (S w,
   match event_id with
   | Some _ => None
   | None => Some (mkExn "ODataError" (Some 400) "Bad Request")
   end).

Definition fresh_cleaner : cleaner nat := mkCleaner 0%nat (mkCleanup 0 0 0) [] [].

(** ** The entry point of create_events.py *)

(** [get_app_client()]: the three [AZURE_*] variables are read and handed to
    [ClientSecretCredential] and [GraphServiceClient].  What these two
    constructors raise, if anything, is the parameter [new_client]; the
    client they build is represented by its behaviour, [post_event]. *)
Definition get_app_client
  (new_client : option string -> option string -> option string -> option exn)
  (environ : string -> option string) : outcome unit :=
  let tenant_id := environ "AZURE_TENANT_ID" in
  let client_id := environ "AZURE_CLIENT_ID" in
  let client_secret := environ "AZURE_CLIENT_SECRET" in
  match new_client tenant_id client_id client_secret with
  | Some e => Raise e
  | None => Ok tt
  end.

(** [main()], with [datetime.now()] as a parameter; the final print reads the
    two keys of the result. *)
Definition create_events_main {World : Type}
  (post_event : World -> string -> Event -> World * option exn)
  (new_client : option string -> option string -> option string -> option exn)
  (environ : string -> option string) (now : datetime)
  : eff (mailbox World) unit :=
  (_ <- elift (get_app_client new_client environ) ;;
   slots <- elift (generate_time_slots now 60 30) ;;
   attendees <- elift (load_test_attendees environ) ;;
   result <- create_test_events post_event attendees slots "TEST_502_" 50 ;;
   _ <- elift (getitem result "created") ;;
   _ <- elift (getitem result "errors") ;;
   eret tt)%eff.

(** Constructors that refuse a missing or empty client id, secret or tenant
    id with [ValueError], in this order, as the identity library does. *)
Definition strict_new_client (tenant_id client_id client_secret : option string)
  : option exn :=
  match client_id, client_secret, tenant_id with
  | None, _, _ | Some EmptyString, _, _ =>
      Some (ValueError "client_id should be the id of a Microsoft Entra application")
  | _, None, _ | _, Some EmptyString, _ =>
      Some (ValueError "secret should be a Microsoft Entra application's client secret")
  | _, _, None | _, _, Some EmptyString =>
      Some (ValueError
              "tenant_id should be a Microsoft Entra tenant's id (also called its 'directory id')")
  | _, _, _ => None
  end.

(** An environment with the application's credentials and two attendees. *)
Definition app_environ (name : string) : option string :=
  if String.eqb name "TEST_ATTENDEES" then Some "a@contoso.com,b@contoso.com"
  else if String.eqb name "AZURE_TENANT_ID" then Some "contoso-tenant"
  else if String.eqb name "AZURE_CLIENT_ID" then Some "contoso-app"
  else if String.eqb name "AZURE_CLIENT_SECRET" then Some "contoso-secret"
  else None.

(** ** Calendar probe ([test_calendar_access], find_meetings.py) *)

Record User : Type := mkUser {
  mail : option string;
  user_principal_name : option string
}.

Inductive user_reply : Type :=
| UserReturns (user : option User)
| UserThrows (e : exn).

(** The service's state and, as a ghost field, the requests made so far. *)
Record probe (World : Type) : Type := mkProbe {
  pr_world : World;
  pr_requests : list string
}.
Arguments mkProbe {World} pr_world pr_requests.
Arguments pr_world {World} p.
Arguments pr_requests {World} p.

Section CalendarProbe.

Variable World : Type.

(** [client.me.get()] *)
Variable get_me : World -> World * user_reply.

(** [client.me.calendar.get()] *)
Variable get_calendar : World -> World * option exn.

Definition do_get_me : eff (probe World) (option User) :=
  fun p =>
    let (w, r) := get_me (pr_world p) in
    (mkProbe w (pr_requests p ++ ["me"]),
     match r with UserReturns user => Ok user | UserThrows e => Raise e end).

Definition do_get_calendar : eff (probe World) unit :=
  fun p =>
    let (w, e) := get_calendar (pr_world p) in
    (mkProbe w (pr_requests p ++ ["me/calendar"]),
     match e with Some e => Raise e | None => Ok tt end).

(** The prints are left out, except for the attribute the first one reads;
    the [attendees] argument is not used by the function. *)
Definition test_calendar_access (attendees : list string)
  : eff (probe World) pyval :=
  etry
    (user <- do_get_me ;;
     _ <- elift (match user with
                 | Some _ => Ok tt
                 | None => Raise (no_attribute "mail")
                 end) ;;
     _ <- do_get_calendar ;;
     eret (VDict [("ok", VInt 1); ("fail", VInt 0)]))%eff
    (fun _ => eret (VDict [("ok", VInt 0); ("fail", VInt 1)])).

End CalendarProbe.

Arguments test_calendar_access {World} get_me get_calendar attendees p.

(** ** Counting candidates (count_candidates.py) *)

(** [v[key]] for a [str] key. *)
Definition subscript (v : pyval) (key : string) : outcome pyval :=
  match v with
  | VDict kv =>
      match assoc key kv with
      | Some x => Ok x
      | None => Raise (KeyError key)
      end
  | VStr _ => Raise (mkExn "TypeError" None "string indices must be integers, not 'str'")
  | VList _ =>
      Raise (mkExn "TypeError" None "list indices must be integers or slices, not str")
  | VNone => Raise (mkExn "TypeError" None "'NoneType' object is not subscriptable")
  | VBool _ => Raise (mkExn "TypeError" None "'bool' object is not subscriptable")
  | VInt _ => Raise (mkExn "TypeError" None "'int' object is not subscriptable")
  | VFloat _ => Raise (mkExn "TypeError" None "'float' object is not subscriptable")
  end.

(** [len(v)] *)
Definition py_len (v : pyval) : outcome Z :=
  match v with
  | VList l => Ok (len l)
  | VDict kv => Ok (len kv)
  | VStr s => Ok (Z.of_nat (String.length s))
  | VNone => Raise (mkExn "TypeError" None "object of type 'NoneType' has no len()")
  | VBool _ => Raise (mkExn "TypeError" None "object of type 'bool' has no len()")
  | VInt _ => Raise (mkExn "TypeError" None "object of type 'int' has no len()")
  | VFloat _ => Raise (mkExn "TypeError" None "object of type 'float' has no len()")
  end.

(** [len(data['data']['meetingTimeSuggestions'])], where [data] is what
    [json.load] read from [api_result.json]. *)
Definition count_candidates (data : pyval) : outcome Z :=
  inner <- subscript data "data" ;;
  suggestions <- subscript inner "meetingTimeSuggestions" ;;
  py_len suggestions.

Definition jan11_0001 : datetime := 10 * US_PER_DAY.
Definition jan12_0001 : datetime := 11 * US_PER_DAY.

Definition sample_slot : TimeSlot :=
  mkTimeSlot (Some (mkDateTimeTimeZone (VStr "2026-01-29T09:00:00") (VStr "UTC")))
             (Some (mkDateTimeTimeZone (VStr "2026-01-29T10:00:00") (VStr "UTC"))).

(** A remote service with two suggestions for every request. *)
Definition helpful_post (w : nat) (body : RequestBody) : nat * reply :=
  (S w,
   Returns (Some (mkResponse
                    (Some [mkSuggestion (VFloat (1 # 1)) (VStr "free") (Some sample_slot);
                           mkSuggestion (VFloat (1 # 2)) (VStr "busy") (Some sample_slot)])
                    VNone))).

(** ** Sample configurations *)

Definition padded_environ (name : string) : option string :=
  if String.eqb name "TEST_ATTENDEES"
  then Some " a@contoso.com , b@contoso.com,, "
  else None.

Definition joined_environ (raws : list string) (name : string) : option string :=
  if String.eqb name "TEST_ATTENDEES"
  then Some (String.concat "," raws)
  else None.

Definition day_slots : list pyval :=
  Eval vm_compute in
    match generate_time_slots jan29 1 30 with
    | Ok slots => slots
    | _ => []
    end.

Definition two_attendees : list string := ["a@contoso.com"; "b@contoso.com"].

Definition padded_items : list string := [" a@contoso.com "; "b@contoso.com"].

(** * Properties of the partitioner *)

Section Windows.

Context {A : Type}.
Implicit Types (l : list A) (b k cnt : nat).

(** A slice of width [B] that starts at a multiple of [B] is a [firstn] of a
    [skipn]. *)
Lemma slice_window l (B : Z) k :
  0 < B ->
  slice l (Z.of_nat k * B) (Z.of_nat k * B + B)
  = firstn (Z.to_nat B) (skipn (k * Z.to_nat B) l).
Proof.
  intros HB. unfold slice, adjust_index, len.
  set (n := List.length l).
  assert (Hk : 0 <= Z.of_nat k * B) by nia.
  destruct (Z.ltb_spec (Z.of_nat k * B) 0) as [?|_]; [lia|].
  destruct (Z.ltb_spec (Z.of_nat k * B + B) 0) as [?|_]; [lia|].
  assert (Hkb : Z.of_nat (k * Z.to_nat B) = Z.of_nat k * B) by nia.
  destruct (Z_le_gt_dec (Z.of_nat k * B) (Z.of_nat n)) as [Hle|Hgt].
  - rewrite (Z.min_l (Z.of_nat k * B)) by lia.
    replace (Z.to_nat (Z.of_nat k * B)) with (k * Z.to_nat B)%nat by lia.
    destruct (Z_le_gt_dec (Z.of_nat k * B + B) (Z.of_nat n)) as [Hle'|Hgt'].
    + rewrite Z.min_l by lia. f_equal. lia.
    + rewrite Z.min_r by lia.
      rewrite !firstn_all2; trivial; rewrite length_skipn; fold n; lia.
  - rewrite !Z.min_r by lia. rewrite Z.sub_diag. simpl.
    rewrite skipn_all2 by (fold n; lia). now rewrite firstn_nil.
Qed.

(** The windows of width [b] taken at [0, b, 2b, ...] tile the list. *)
Lemma concat_windows b cnt : forall l start,
  (0 < b)%nat ->
  (List.length l <= (start + cnt) * b)%nat ->
  List.concat (map (fun k => firstn b (skipn (k * b) l)) (seq start cnt))
  = skipn (start * b) l.
Proof.
  induction cnt as [|cnt IH]; intros l start Hb Hlen.
  - simpl. rewrite skipn_all2 by lia. reflexivity.
  - simpl. rewrite IH by (trivial; lia).
    replace (S start * b)%nat with (b + start * b)%nat by lia.
    rewrite <- skipn_skipn. apply firstn_skipn.
Qed.

End Windows.

(** Reading the [i]-th element of a list built over [0 .. cnt-1]. *)
Lemma nth_error_windows {B : Type} (f : nat -> B) (cnt i : nat) (p : B) :
  nth_error (map f (seq 0 cnt)) i = Some p -> (i < cnt)%nat /\ p = f i.
Proof.
  intros H.
  assert (Hi : (i < cnt)%nat).
  { assert (Hn : nth_error (map f (seq 0 cnt)) i <> None) by congruence.
    apply nth_error_Some in Hn. now rewrite length_map, length_seq in Hn. }
  split; [exact Hi|].
  rewrite nth_error_map, nth_error_seq in H.
  destruct (Nat.ltb_spec i cnt); [|lia].
  simpl in H. congruence.
Qed.

(** The number of windows [range(0, n, B)] yields covers [n] tightly. *)
Lemma range_len_cover (n B : Z) :
  0 < B -> 0 <= n ->
  let c := range_len 0 n B in
  (n = 0 -> c = 0) /\ (0 < n -> 1 <= c /\ (c - 1) * B < n <= c * B).
Proof.
  intros HB Hn c. subst c. unfold range_len.
  destruct (Z.ltb_spec 0 B) as [_|?]; [|lia].
  destruct (Z.ltb_spec 0 n) as [Hpos|Hz]; split; intros; try lia.
  replace (n - 1 - 0) with (n - 1) by lia.
  pose proof (Z.div_mod (n - 1) B ltac:(lia)) as Hdm.
  pose proof (Z.mod_pos_bound (n - 1) B HB) as Hmod.
  pose proof (Z.div_pos (n - 1) B ltac:(lia) HB) as Hq.
  nia.
Qed.

(** For a positive batch size the comprehension is the list of windows. *)
Lemma batch_attendees_windows (attendees : list string) (B : Z) :
  0 < B ->
  batch_attendees attendees B
  = Ok (map (fun k => firstn (Z.to_nat B) (skipn (k * Z.to_nat B) attendees))
            (seq 0 (Z.to_nat (range_len 0 (len attendees) B)))).
Proof.
  intros HB. unfold batch_attendees, range.
  destruct (Z.eqb_spec B 0) as [?|_]; [lia|]. simpl.
  f_equal. rewrite map_map. apply map_ext. intros k. simpl.
  apply slice_window. exact HB.
Qed.

(** C2. For a positive batch size [B], [batch_attendees] returns partitions
    whose concatenation is the participant list; every partition but the last
    has [B] elements, the last has between 1 and [B], and the empty list
    gives no partition. *)
Theorem batch_attendees_partition (attendees : list string) (B : Z) :
  0 < B ->
  exists parts,
    batch_attendees attendees B = Ok parts
    /\ List.concat parts = attendees
    /\ (forall i p, nth_error parts i = Some p ->
                    (S i < List.length parts)%nat -> len p = B)
    /\ (forall p, nth_error parts (List.length parts - 1) = Some p ->
                  1 <= len p <= B)
    /\ (attendees = [] -> parts = []).
Proof.
  intros HB. eexists. split; [apply batch_attendees_windows; exact HB|].
  set (b := Z.to_nat B).
  set (c := range_len 0 (len attendees) B).
  assert (Hn : 0 <= len attendees) by (unfold len; lia).
  destruct (range_len_cover (len attendees) B HB Hn) as [Hzero Hpos].
  fold c in Hzero, Hpos.
  assert (Hsize : forall i p,
             nth_error (map (fun k => firstn b (skipn (k * b) attendees))
                            (seq 0 (Z.to_nat c))) i = Some p ->
             (i < Z.to_nat c)%nat
             /\ List.length p = Nat.min b (List.length attendees - i * b)).
  { intros i p H. apply nth_error_windows in H as [Hi ->].
    split; [exact Hi|]. now rewrite length_firstn, length_skipn. }
  repeat split.
  - destruct (Z.eq_dec (len attendees) 0) as [Hz|Hnz].
    + rewrite (Hzero Hz). simpl. unfold len in Hz.
      destruct attendees; [reflexivity|discriminate].
    + rewrite (concat_windows b (Z.to_nat c) attendees 0); [reflexivity|lia|].
      unfold len in *. nia.
  - intros i p H Hlast. rewrite length_map, length_seq in Hlast.
    apply Hsize in H as [Hi Hp]. unfold len in *. rewrite Hp. nia.
  - rewrite length_map, length_seq in H. apply Hsize in H as [Hi Hp].
    unfold len in *. rewrite Hp. nia.
  - rewrite length_map, length_seq in H. apply Hsize in H as [Hi Hp].
    unfold len in *. rewrite Hp. nia.
  - intros ->. simpl in Hzero. rewrite Hzero by reflexivity. reflexivity.
Qed.

(** C6 as stated fails: a negative batch size is not rejected. *)
Lemma batch_attendees_negative_not_rejected :
  ~ (-1 <= 0 ->
     exists e, batch_attendees ["alice@contoso.com"; "bob@contoso.com"] (-1)
               = Raise e).
Proof.
  intros H. destruct (H ltac:(lia)) as [e He]. vm_compute in He. discriminate.
Qed.

(** C6, amended. A batch size of zero makes [range] raise [ValueError]; a
    negative batch size is not rejected: the result is the empty list of
    partitions, whatever the participants. *)
Theorem batch_attendees_nonpositive (attendees : list string) (B : Z) :
  B <= 0 ->
  (B = 0 ->
   batch_attendees attendees B
   = Raise (ValueError "range() arg 3 must not be zero"))
  /\ (B < 0 -> batch_attendees attendees B = Ok []).
Proof.
  intros HB. split; intros H.
  - subst B. reflexivity.
  - unfold batch_attendees, range, range_len.
    destruct (Z.eqb_spec B 0) as [?|_]; [lia|].
    destruct (Z.ltb_spec 0 B) as [?|_]; [lia|].
    destruct (Z.ltb_spec (len attendees) 0) as [Hneg|_];
      [unfold len in Hneg; lia|].
    reflexivity.
Qed.

(** * Properties of the chunker *)

Section Chunks.

Variables (start end_ : datetime) (days : Z).

Let step : Z := days * US_PER_DAY.
Let n : Z := chunk_count start end_ days.

Hypothesis Hstart : 0 <= start.
Hypothesis Hlt : start < end_.
Hypothesis Hend : end_ <= datetime_max.
Hypothesis Hdays : 0 < days.

Lemma step_pos : 0 < step.
Proof. unfold step, US_PER_DAY, US_PER_SECOND. lia. Qed.

Lemma chunk_count_cover : 1 <= n /\ start + (n - 1) * step < end_ <= start + n * step.
Proof.
  pose proof step_pos as Hs. unfold n, chunk_count. fold step.
  pose proof (Z.div_mod (end_ - start - 1) step ltac:(lia)) as Hdm.
  pose proof (Z.mod_pos_bound (end_ - start - 1) step Hs) as Hmod.
  pose proof (Z.div_pos (end_ - start - 1) step ltac:(lia) Hs) as Hq.
  nia.
Qed.

Lemma boundary_inner (i : nat) :
  Z.of_nat i < n -> boundary start end_ days i = start + Z.of_nat i * step.
Proof.
  intros Hi. pose proof chunk_count_cover as [_ [Hlo _]].
  pose proof step_pos.
  unfold boundary, Py.min. fold step.
  destruct (Z.ltb_spec end_ (start + Z.of_nat i * step)); [nia|reflexivity].
Qed.

Lemma boundary_outer (i : nat) :
  n <= Z.of_nat i -> boundary start end_ days i = end_.
Proof.
  intros Hi. pose proof chunk_count_cover as [_ [_ Hhi]].
  pose proof step_pos.
  unfold boundary, Py.min. fold step.
  destruct (Z.ltb_spec end_ (start + Z.of_nat i * step)); [reflexivity|nia].
Qed.

Lemma boundary_succ (i : nat) :
  Z.of_nat i < n ->
  boundary start end_ days (S i)
  = Py.min (boundary start end_ days i + step) end_.
Proof.
  intros Hi. rewrite (boundary_inner i Hi). unfold boundary. fold step.
  f_equal. lia.
Qed.

Lemma boundary_lt (i : nat) :
  Z.of_nat i < n ->
  boundary start end_ days i < boundary start end_ days (S i) <= end_.
Proof.
  intros Hi. pose proof chunk_count_cover as [_ [Hlo _]].
  pose proof step_pos.
  rewrite (boundary_inner i Hi). unfold boundary, Py.min. fold step.
  destruct (Z.ltb_spec end_ (start + Z.of_nat (S i) * step)); nia.
Qed.

(** The loop, started at boundary [i] with [k] chunks to go, appends the
    remaining chunks and stops. *)
Lemma chunk_loop_run (k : nat) : forall (i fuel : nat) acc,
  start + n * step <= datetime_max ->
  Z.of_nat i + Z.of_nat k = n ->
  (k < fuel)%nat ->
  chunk_loop fuel acc (boundary start end_ days i) end_ days
  = Ok (acc ++ map (fun j => (boundary start end_ days j,
                              boundary start end_ days (S j)))
                   (seq i k))%list.
Proof.
  pose proof step_pos as Hs. pose proof chunk_count_cover as [Hn [Hlo Hhi]].
  induction k as [|k IH]; intros i fuel acc Hmax Hik Hfuel;
    (destruct fuel as [|fuel]; [lia|]); cbn [chunk_loop].
  - rewrite boundary_outer by lia.
    rewrite Z.ltb_irrefl. now rewrite app_nil_r.
  - pose proof (boundary_lt i ltac:(lia)) as Hb.
    destruct (Z.ltb_spec (boundary start end_ days i) end_) as [_|?]; [|lia].
    assert (Hd : Z.abs days <= MAX_DELTA_DAYS).
    { unfold datetime_max, MAX_ORDINAL in Hmax.
      unfold step, US_PER_DAY, US_PER_SECOND, MAX_DELTA_DAYS in *. nia. }
    unfold timedelta_days.
    destruct (Z.leb_spec (Z.abs days) MAX_DELTA_DAYS) as [_|?]; [|lia].
    cbn [Py.bind]. fold step.
    assert (Hr : in_range (boundary start end_ days i + step) = true).
    { rewrite (boundary_inner i) by lia. unfold in_range.
      apply andb_true_intro; split; apply Z.leb_le; nia. }
    unfold DateTime.add. rewrite Hr. cbn [Py.bind].
    rewrite <- boundary_succ by lia.
    rewrite (IH (S i) fuel) by (trivial; lia).
    rewrite <- app_assoc. reflexivity.
Qed.

(** Past [datetime.max] the loop stops with [OverflowError] at the last
    addition (or at the very first [timedelta] when [days] is too large). *)
Lemma chunk_loop_overflow (k : nat) : forall (i fuel : nat) acc,
  datetime_max < start + n * step ->
  Z.of_nat i + Z.of_nat k = n - 1 ->
  (k < fuel)%nat ->
  exists e,
    exn_class e = "OverflowError"
    /\ chunk_loop fuel acc (boundary start end_ days i) end_ days = Raise e.
Proof.
  pose proof step_pos as Hs. pose proof chunk_count_cover as [Hn [Hlo Hhi]].
  induction k as [|k IH]; intros i fuel acc Hmax Hik Hfuel;
    (destruct fuel as [|fuel]; [lia|]); cbn [chunk_loop];
    pose proof (boundary_lt i ltac:(lia)) as Hb;
    (destruct (Z.ltb_spec (boundary start end_ days i) end_) as [_|?]; [|lia]);
    unfold timedelta_days.
  - destruct (Z.leb_spec (Z.abs days) MAX_DELTA_DAYS) as [_|_]; cbn [Py.bind];
      [|eexists; split; [|reflexivity]; reflexivity].
    fold step.
    assert (Hr : in_range (boundary start end_ days i + step) = false).
    { rewrite (boundary_inner i) by lia. unfold in_range.
      apply andb_false_intro2. apply Z.leb_gt. nia. }
    unfold DateTime.add. rewrite Hr. cbn [Py.bind].
    eexists; split; [|reflexivity]; reflexivity.
  - assert (Hd : Z.abs days <= MAX_DELTA_DAYS).
    { unfold datetime_max, MAX_ORDINAL in Hend.
      unfold step, US_PER_DAY, US_PER_SECOND, MAX_DELTA_DAYS in *. nia. }
    destruct (Z.leb_spec (Z.abs days) MAX_DELTA_DAYS) as [_|?]; [|lia].
    cbn [Py.bind]. fold step.
    assert (Hr : in_range (boundary start end_ days i + step) = true).
    { rewrite (boundary_inner i) by lia. unfold in_range.
      apply andb_true_intro; split; apply Z.leb_le; nia. }
    unfold DateTime.add. rewrite Hr. cbn [Py.bind].
    rewrite <- boundary_succ by lia.
    apply (IH (S i) fuel); trivial; lia.
Qed.

End Chunks.

Lemma py_min_Zmin (a b : Z) : Py.min a b = Z.min a b.
Proof. unfold Py.min. destruct (Z.ltb_spec b a); lia. Qed.

(** The hypothesis of the amended C3 is exact: when the last addition would
    pass [datetime.max], [chunk_dates] raises [OverflowError]. *)
Lemma chunk_dates_overflow (start end_ : datetime) (days : Z) (fuel : nat) :
  0 <= start -> start < end_ -> end_ <= datetime_max -> 0 < days ->
  datetime_max < start + chunk_count start end_ days * (days * US_PER_DAY) ->
  (Z.to_nat (chunk_count start end_ days) <= fuel)%nat ->
  exists e,
    exn_class e = "OverflowError"
    /\ chunk_dates fuel start end_ days = Raise e.
Proof.
  intros Hstart Hlt Hend Hdays Hmax Hfuel.
  pose proof (chunk_count_cover start end_ days Hlt Hdays) as [Hn _].
  assert (Hb0 : boundary start end_ days 0 = start)
    by (rewrite boundary_inner by (trivial; lia); simpl; lia).
  unfold chunk_dates. rewrite <- Hb0.
  apply (chunk_loop_overflow start end_ days Hstart Hlt Hend Hdays
           (Z.to_nat (chunk_count start end_ days) - 1)); trivial; lia.
Qed.

(** C3 as stated fails: close to [datetime.max] the addition
    [current + timedelta(days=days)] raises [OverflowError], so no list of
    chunks is returned for 9999-12-30 .. 9999-12-31 and three-day chunks. *)
Lemma chunk_dates_overflow_near_max :
  of_date 9999 12 30 = Ok 315537724800000000
  /\ of_date 9999 12 31 = Ok 315537811200000000
  /\ ~ (315537724800000000 < 315537811200000000 -> 0 < 3 ->
        exists fuel chunks,
          chunk_dates fuel 315537724800000000 315537811200000000 3 = Ok chunks).
Proof.
  split; [reflexivity|]. split; [reflexivity|].
  intros H. destruct (H ltac:(lia) ltac:(lia)) as [fuel [chunks Hc]].
  destruct fuel as [|fuel]; vm_compute in Hc; discriminate.
Qed.

(** C3, amended. For [start < end] and [days > 0], provided the last addition
    [current + timedelta(days=days)] stays within [datetime.max],
    [chunk_dates] returns (once the loop is given one more iteration than
    there are chunks) a list of chunks whose first chunk starts at [start],
    where every chunk ends at [min(its start + days, end)], starts before it
    ends and ends no later than [end], every chunk starts where the previous
    one ended, and the last chunk ends at [end]. *)
Theorem chunk_dates_chunks (start end_ : datetime) (days : Z) :
  0 <= start -> start < end_ -> end_ <= datetime_max -> 0 < days ->
  start + chunk_count start end_ days * (days * US_PER_DAY) <= datetime_max ->
  exists chunks,
    (forall fuel, (Z.to_nat (chunk_count start end_ days) < fuel)%nat ->
                  chunk_dates fuel start end_ days = Ok chunks)
    /\ len chunks = chunk_count start end_ days
    /\ (exists e0 rest, chunks = (start, e0) :: rest)
    /\ (forall i s e, nth_error chunks i = Some (s, e) ->
                      e = Z.min (s + days * US_PER_DAY) end_
                      /\ s < e /\ e <= end_)
    /\ (forall i c c', nth_error chunks i = Some c ->
                       nth_error chunks (S i) = Some c' -> fst c' = snd c)
    /\ (exists s, nth_error chunks (List.length chunks - 1) = Some (s, end_)).
Proof.
  intros Hstart Hlt Hend Hdays Hmax.
  set (n := chunk_count start end_ days) in *.
  set (b := boundary start end_ days).
  pose proof (chunk_count_cover start end_ days Hlt Hdays) as [Hn _].
  fold n in Hn.
  assert (Hb0 : b 0%nat = start).
  { unfold b. rewrite boundary_inner by (trivial; fold n; lia). simpl. lia. }
  exists (map (fun j => (b j, b (S j))) (seq 0 (Z.to_nat n))).
  assert (Hnth : forall i c,
             nth_error (map (fun j => (b j, b (S j))) (seq 0 (Z.to_nat n))) i
             = Some c ->
             Z.of_nat i < n /\ c = (b i, b (S i))).
  { intros i c H. apply nth_error_windows in H as [Hi ->]. split; [lia|easy]. }
  split; [|split; [|split; [|split; [|split]]]].
  - intros fuel Hfuel. unfold chunk_dates. rewrite <- Hb0. unfold b.
    rewrite (chunk_loop_run start end_ days Hstart Hlt Hend Hdays (Z.to_nat n) 0 fuel [])
      by (trivial; fold n; lia).
    reflexivity.
  - unfold len. rewrite length_map, length_seq. lia.
  - destruct (Z.to_nat n) as [|m] eqn:Em; [lia|].
    simpl. rewrite Hb0. eauto.
  - intros i s e H. apply Hnth in H as [Hi Hc]. inversion Hc; subst s e.
    pose proof (boundary_lt start end_ days Hlt Hdays i Hi) as Hb.
    fold b in Hb. split; [|lia].
    unfold b. rewrite boundary_succ by trivial. apply py_min_Zmin.
  - intros i c c' H H'. apply Hnth in H as [_ ->]. apply Hnth in H' as [_ ->].
    reflexivity.
  - exists (b (Z.to_nat n - 1)%nat).
    rewrite length_map, length_seq.
    rewrite nth_error_map, nth_error_seq.
    destruct (Nat.ltb_spec (Z.to_nat n - 1) (Z.to_nat n)) as [_|?]; [|lia].
    simpl. do 2 f_equal.
    replace (S (Z.to_nat n - 1)) with (Z.to_nat n) by lia.
    unfold b. apply boundary_outer; trivial. fold n. lia.
Qed.

(** C7 as stated fails: an interval with [start >= end] is not rejected. *)
Lemma chunk_dates_reversed_not_rejected :
  of_date 2026 2 28 = Ok 63907833600000000
  /\ of_date 2026 1 29 = Ok 63905241600000000
  /\ ~ (63907833600000000 >= 63905241600000000 ->
        forall fuel, (0 < fuel)%nat ->
        exists e, chunk_dates fuel 63907833600000000 63905241600000000 3
                  = Raise e).
Proof.
  split; [reflexivity|]. split; [reflexivity|].
  intros H. destruct (H ltac:(lia) 1%nat ltac:(lia)) as [e He].
  vm_compute in He. discriminate.
Qed.

(** C7, amended. For [start >= end] the chunker raises nothing: the loop
    body never runs and the empty list of chunks is returned, for every chunk
    size. *)
Theorem chunk_dates_empty_interval (fuel : nat) (start end_ : datetime) (days : Z) :
  start >= end_ ->
  chunk_dates (S fuel) start end_ days = Ok [].
Proof.
  intros H. unfold chunk_dates. cbn [chunk_loop].
  destruct (Z.ltb_spec start end_) as [Hlt|_]; [lia|reflexivity].
Qed.

(** With [days = 0] and [start < end] the loop never advances: it is still
    running whatever fuel it is given. *)
Lemma chunk_dates_zero_days_spins (fuel : nat) (start end_ : datetime) :
  0 <= start -> start < end_ -> end_ <= datetime_max ->
  chunk_dates fuel start end_ 0 = OutOfFuel.
Proof.
  intros Hstart Hlt Hend. unfold chunk_dates. generalize (@nil (datetime * datetime)).
  induction fuel as [|fuel IH]; intros acc; [reflexivity|].
  cbn [chunk_loop].
  destruct (Z.ltb_spec start end_) as [_|?]; [|lia].
  change (timedelta_days 0) with (@Ok timedelta 0). cbn [Py.bind].
  unfold DateTime.add, in_range. rewrite Z.add_0_r.
  destruct (Z.leb_spec 0 start); [|lia].
  destruct (Z.leb_spec start datetime_max); [|lia].
  cbn [andb Py.bind]. unfold Py.min.
  destruct (Z.ltb_spec end_ start); [lia|]. apply IH.
Qed.

(** * Properties of the external-call wrapper and the aggregator *)

Section EngineFacts.

Context {World : Type}.
Variable post : World -> RequestBody -> World * reply.
Variable save_raw : World -> Response -> World * option exn.

Lemma suggestion_entries_fuel (items : list MeetingTimeSuggestion) :
  suggestion_entries items <> OutOfFuel.
Proof.
  induction items as [|item rest IH]; simpl; [discriminate|].
  unfold suggestion_entry.
  destruct (meeting_time_slot item) as [slot|]; [|discriminate].
  destruct (slot_start slot); [|discriminate].
  destruct (slot_end slot); [|discriminate].
  simpl. destruct (suggestion_entries rest); simpl; congruence.
Qed.

(** A normal return is a dictionary whose status is 200. *)
Lemma success_result_shape (r : Response) (v : pyval) :
  success_result r = Ok v ->
  exists data, v = VDict [("status", VInt 200); ("data", data)].
Proof.
  unfold success_result.
  destruct (suggestion_entries _); simpl; intros H; inversion H. eauto.
Qed.

Lemma success_result_fuel (r : Response) : success_result r <> OutOfFuel.
Proof.
  unfold success_result.
  pose proof (suggestion_entries_fuel
                (match meeting_time_suggestions r with Some l => l | None => [] end)).
  destruct (suggestion_entries _); simpl; congruence.
Qed.

(** The [try] body posts exactly one request, then returns a status-200
    dictionary or raises. *)
Lemma call_body_cases attendees start end_ duration max_candidates save_debug s :
  exists s',
    issued s' = (issued s
                 ++ [build_request attendees start end_ duration max_candidates])%list
    /\ ((exists data,
           call_body post save_raw attendees start end_ duration max_candidates
                     save_debug s
           = (s', Ok (VDict [("status", VInt 200); ("data", data)])))
        \/ (exists e,
              call_body post save_raw attendees start end_ duration
                        max_candidates save_debug s
              = (s', Raise e))).
Proof.
  unfold call_body, rbind, do_post, do_save_raw, ret, lift.
  destruct (post (world s) _) as [w [result|e]].
  2:{ eexists; split; [|right; eauto]. reflexivity. }
  destruct save_debug.
  - destruct result as [r|].
    2:{ eexists; split; [|right; eauto]. reflexivity. }
    cbn [world issued].
    destruct (save_raw w r) as [w' [e|]].
    + eexists; split; [|right; eauto]. reflexivity.
    + pose proof (success_result_fuel r) as Hf.
      destruct (success_result r) as [v|e|] eqn:E; [| |congruence].
      * apply success_result_shape in E as [data ->].
        eexists; split; [|left; eauto]. reflexivity.
      * eexists; split; [|right; eauto]. reflexivity.
  - destruct result as [r|].
    2:{ eexists; split; [|right; eauto]. reflexivity. }
    pose proof (success_result_fuel r) as Hf.
    destruct (success_result r) as [v|e|] eqn:E; [| |congruence].
    * apply success_result_shape in E as [data ->].
      eexists; split; [|left; eauto]. reflexivity.
    * eexists; split; [|right; eauto]. reflexivity.
Qed.

(** C10. [call_findmeetingtimes] never raises: it returns a dictionary whose
    status is 200 when the [try] body completes and 500, with [str(e)] as
    data, when the body raises [e]; when the remote call itself raises an
    error, whatever status code that error carries (502, say), the status
    returned is 500. *)
Theorem call_findmeetingtimes_never_raises
  attendees start end_ duration max_candidates save_debug s :
  exists s' v,
    call_findmeetingtimes post save_raw attendees start end_ duration
                          max_candidates save_debug s = (s', Ok v)
    /\ ((exists data,
           call_body post save_raw attendees start end_ duration max_candidates
                     save_debug s = (s', Ok v)
           /\ v = VDict [("status", VInt 200); ("data", data)])
        \/ (exists e,
              call_body post save_raw attendees start end_ duration
                        max_candidates save_debug s = (s', Raise e)
              /\ v = VDict [("status", VInt 500); ("data", VStr (exn_str e))]))
    /\ (forall w e,
          post (world s)
               (build_request attendees start end_ duration max_candidates)
          = (w, Throws e) ->
          v = VDict [("status", VInt 500); ("data", VStr (exn_str e))]).
Proof.
  destruct (call_body_cases attendees start end_ duration max_candidates
              save_debug s) as [s' [_ [[data H]|[e H]]]].
  - exists s', (VDict [("status", VInt 200); ("data", data)]).
    unfold call_findmeetingtimes, try_except. rewrite H.
    split; [reflexivity|]. split; [left; eauto|].
    intros w e Hpost. revert H.
    unfold call_body, rbind, do_post. rewrite Hpost. discriminate.
  - exists s', (failure_result e).
    unfold call_findmeetingtimes, try_except. rewrite H.
    split; [reflexivity|]. split; [right; eauto|].
    intros w e' Hpost. revert H.
    unfold call_body, rbind, do_post. rewrite Hpost.
    intros H. inversion H. reflexivity.
Qed.

(** ** The aggregator as one pass over the grid of call units *)

(** Serving one unit is what the wrapper does for it; the result has a
    status, and exactly one request is posted. *)
Lemma call_unit_spec duration max_candidates u s :
  call_findmeetingtimes post save_raw (fst u) (isoformat (fst (snd u)))
                        (isoformat (snd (snd u))) duration max_candidates false s
  = (fst (call_unit post save_raw duration max_candidates u s),
     Ok (snd (call_unit post save_raw duration max_candidates u s)))
  /\ issued (fst (call_unit post save_raw duration max_candidates u s))
     = (issued s ++ [unit_request duration max_candidates u])%list
  /\ exists st,
       getitem (snd (call_unit post save_raw duration max_candidates u s)) "status"
       = Ok (VInt st).
Proof.
  unfold call_unit, call_findmeetingtimes, try_except, unit_request.
  destruct (call_body_cases (fst u) (isoformat (fst (snd u)))
              (isoformat (snd (snd u))) duration max_candidates false s)
    as [s' [Hi [[data H]|[e H]]]]; rewrite H; cbn [fst snd];
    (split; [reflexivity|]); (split; [exact Hi|]); eexists; reflexivity.
Qed.

Lemma count_ok_cons (v : pyval) (rs : list pyval) :
  count_ok (v :: rs) = (if status_is_200 v then 1 else 0) + count_ok rs.
Proof.
  unfold count_ok, len. cbn [filter].
  destruct (status_is_200 v); cbn [List.length]; lia.
Qed.

(** Recording one result and then the rest is recording them all. *)
Lemma record_then_after (t : tally) (v : pyval) (rs : list pyval) (st : Z) :
  getitem v "status" = Ok (VInt st) ->
  exists t1, record_result t v = Ok t1
             /\ tally_after t1 rs = tally_after t (v :: rs).
Proof.
  intros Hst. unfold record_result. rewrite Hst. cbn [Py.bind].
  eexists. split; [reflexivity|].
  unfold tally_after. rewrite count_ok_cons.
  unfold status_is_200. rewrite Hst.
  replace (len (v :: rs)) with (1 + len rs) by (unfold len; cbn [List.length]; lia).
  destruct (eq_int (VInt st) 200); cbn [results successful failed];
    rewrite <- app_assoc; cbn [app]; f_equal; lia.
Qed.

Lemma tally_after_nil (t : tally) : tally_after t [] = t.
Proof.
  destruct t as [rs ok bad]. unfold tally_after, count_ok, len. simpl.
  rewrite app_nil_r. f_equal; lia.
Qed.

(** The inner loop serves the units of one batch in chunk order. *)
Lemma for_chunks_serve batch duration max_candidates chunks : forall t s,
  for_chunks post save_raw batch chunks duration max_candidates t s
  = (fst (serve post save_raw duration max_candidates (map (pair batch) chunks) s),
     Ok (tally_after t
           (snd (serve post save_raw duration max_candidates (map (pair batch) chunks) s)))).
Proof.
  induction chunks as [|[chunk_start chunk_end] rest IH]; intros t s.
  - simpl. unfold ret. now rewrite tally_after_nil.
  - cbn [for_chunks map serve]. unfold rbind at 1.
    destruct (call_unit_spec duration max_candidates
                (batch, (chunk_start, chunk_end)) s) as [Hcall [_ [st Hst]]].
    cbn [fst snd] in Hcall. rewrite Hcall.
    destruct (call_unit post save_raw duration max_candidates
                (batch, (chunk_start, chunk_end)) s) as [s1 v].
    cbn [fst snd] in *.
    destruct (record_then_after t v
                (snd (serve post save_raw duration max_candidates (map (pair batch) rest) s1))
                st Hst) as [t1 [Hrec Hafter]].
    unfold rbind, lift. rewrite Hrec. rewrite IH.
    destruct (serve post save_raw duration max_candidates (map (pair batch) rest) s1)
      as [s2 rs].
    cbn [fst snd] in *. now rewrite Hafter.
Qed.

Lemma serve_app duration max_candidates units1 : forall units2 s,
  serve post save_raw duration max_candidates (units1 ++ units2) s
  = (fst (serve post save_raw duration max_candidates units2
            (fst (serve post save_raw duration max_candidates units1 s))),
     (snd (serve post save_raw duration max_candidates units1 s)
      ++ snd (serve post save_raw duration max_candidates units2
                (fst (serve post save_raw duration max_candidates units1 s))))%list).
Proof.
  induction units1 as [|u rest IH]; intros units2 s.
  - simpl. now destruct (serve post save_raw duration max_candidates units2 s).
  - cbn [app serve].
    destruct (call_unit post save_raw duration max_candidates u s) as [s1 r].
    rewrite IH.
    destruct (serve post save_raw duration max_candidates rest s1) as [s2 rs].
    cbn [fst snd].
    now destruct (serve post save_raw duration max_candidates units2 s2).
Qed.

Lemma tally_after_app (t : tally) (rs1 rs2 : list pyval) :
  tally_after (tally_after t rs1) rs2 = tally_after t (rs1 ++ rs2).
Proof.
  unfold tally_after, count_ok, len. cbn [results successful failed].
  rewrite filter_app, !length_app, app_assoc. f_equal; lia.
Qed.

(** The two nested loops serve the grid partition-major, chunk-minor. *)
Lemma for_batches_serve duration max_candidates chunks batches : forall t s,
  for_batches post save_raw batches chunks duration max_candidates t s
  = (fst (serve post save_raw duration max_candidates (call_units batches chunks) s),
     Ok (tally_after t
           (snd (serve post save_raw duration max_candidates (call_units batches chunks) s)))).
Proof.
  induction batches as [|batch rest IH]; intros t s.
  - simpl. unfold ret. now rewrite tally_after_nil.
  - cbn [for_batches]. unfold rbind. rewrite for_chunks_serve.
    rewrite IH. unfold call_units. cbn [flat_map]. rewrite serve_app.
    cbn [fst snd]. now rewrite tally_after_app.
Qed.

Lemma serve_issued duration max_candidates units : forall s,
  issued (fst (serve post save_raw duration max_candidates units s))
  = (issued s ++ map (unit_request duration max_candidates) units)%list.
Proof.
  induction units as [|u rest IH]; intros s.
  - simpl. now rewrite app_nil_r.
  - cbn [serve map].
    destruct (call_unit_spec duration max_candidates u s) as [_ [Hi _]].
    destruct (call_unit post save_raw duration max_candidates u s) as [s1 r].
    specialize (IH s1).
    destruct (serve post save_raw duration max_candidates rest s1) as [s2 rs].
    cbn [fst snd] in *. rewrite IH, Hi. now rewrite <- app_assoc.
Qed.

Lemma serve_length duration max_candidates units : forall s,
  List.length (snd (serve post save_raw duration max_candidates units s)) = List.length units.
Proof.
  induction units as [|u rest IH]; intros s; [reflexivity|].
  cbn [serve].
  destruct (call_unit post save_raw duration max_candidates u s) as [s1 r].
  specialize (IH s1).
  destruct (serve post save_raw duration max_candidates rest s1) as [s2 rs].
  simpl in *. now rewrite IH.
Qed.

Lemma report_after (rs : list pyval) :
  report (tally_after (mkTally [] 0 0) rs) = Ok (report_of rs).
Proof.
  unfold report, report_of, tally_after, truediv.
  cbn [results successful failed app].
  destruct rs as [|r rs]; [reflexivity|].
  replace (len (r :: rs) =? 0) with false
    by (symmetry; apply Z.eqb_neq; unfold len; cbn [List.length]; lia).
  cbn [Py.bind]. do 3 f_equal; f_equal; f_equal; lia.
Qed.

(** Once the partitions and the chunks are there, [run_mitigation] is one
    sequential pass over the grid followed by the report. *)
Lemma run_mitigation_serve fuel attendees start end_ batch_size days_per_chunk
  duration max_candidates batches chunks s :
  batch_attendees attendees batch_size = Ok batches ->
  chunk_dates fuel start end_ days_per_chunk = Ok chunks ->
  run_mitigation post save_raw fuel attendees start end_ batch_size
                 days_per_chunk duration max_candidates s
  = (fst (serve post save_raw duration max_candidates
            (call_units batches chunks) s),
     Ok (report_of
           (snd (serve post save_raw duration max_candidates
                   (call_units batches chunks) s)))).
Proof.
  intros Hb Hc. unfold run_mitigation, rbind, lift.
  rewrite Hb, Hc, for_batches_serve, report_after. reflexivity.
Qed.

End EngineFacts.

Lemma call_units_length {B C} (batches : list B) (chunks : list C) :
  len (call_units batches chunks) = len batches * len chunks.
Proof.
  unfold call_units, len.
  induction batches as [|b rest IH]; [reflexivity|].
  cbn [flat_map List.length]. rewrite length_app, length_map. lia.
Qed.

(** Position [i * len(chunks) + j] of the grid holds batch [i] with chunk [j]. *)
Lemma call_units_nth {B C} (chunks : list C) (j : nat) (chunk : C) :
  nth_error chunks j = Some chunk ->
  forall (batches : list B) (i : nat) (batch : B),
    nth_error batches i = Some batch ->
    nth_error (call_units batches chunks) (i * List.length chunks + j)
    = Some (batch, chunk).
Proof.
  intros Hj. unfold call_units.
  assert (Hlt : (j < List.length chunks)%nat)
    by (apply nth_error_Some; congruence).
  induction batches as [|b rest IH]; intros i batch Hi.
  - destruct i; discriminate.
  - cbn [flat_map]. destruct i as [|i]; cbn [nth_error] in Hi.
    + inversion Hi; subst b. cbn [Nat.mul Nat.add].
      rewrite nth_error_app1 by (rewrite length_map; exact Hlt).
      now apply map_nth_error.
    + rewrite nth_error_app2 by (rewrite length_map; lia).
      rewrite length_map.
      replace (S i * List.length chunks + j - List.length chunks)%nat
        with (i * List.length chunks + j)%nat by lia.
      now apply IH.
Qed.

(** The scenario of the design document: 25 participants in batches of 5,
    29 January to 28 February 2026 in chunks of 3 days. *)
Lemma scenario_grid (attendees : list string) :
  List.length attendees = 25%nat ->
  exists batches chunks,
    batch_attendees attendees 5 = Ok batches
    /\ chunk_dates 11 jan29 feb28 3 = Ok chunks
    /\ len batches = 5 /\ len chunks = 10.
Proof.
  intros H25. do 2 eexists.
  split; [apply batch_attendees_windows; lia|].
  split; [vm_compute; reflexivity|].
  unfold len. rewrite length_map, length_seq, H25. split; reflexivity.
Qed.

Section Aggregator.

Context {World : Type}.
Variable post : World -> RequestBody -> World * reply.
Variable save_raw : World -> Response -> World * option exn.
Variables (fuel : nat) (attendees : list string) (start end_ : datetime).
Variables (batch_size days_per_chunk duration max_candidates : Z).
Variables (batches : list (list string)) (chunks : list (datetime * datetime)).
Variable s : session World.

Hypothesis Hbatches : batch_attendees attendees batch_size = Ok batches.
Hypothesis Hchunks : chunk_dates fuel start end_ days_per_chunk = Ok chunks.

(** C1. Whatever the remote service does on each call (return, or raise an
    error of any kind), [run_mitigation] returns a report: every call unit of
    the grid has been posted, the result list has one entry per call unit,
    the counters count the results with and without status 200, and
    [success_rate] is [successful / total_calls], or 0 when there is no call. *)
Theorem run_mitigation_isolates_failures :
  exists s' report rs,
    run_mitigation post save_raw fuel attendees start end_ batch_size
                   days_per_chunk duration max_candidates s = (s', Ok report)
    /\ issued s'
       = (issued s ++ map (unit_request duration max_candidates)
                          (call_units batches chunks))%list
    /\ getitem report "results" = Ok (VList rs)
    /\ len rs = len (call_units batches chunks)
    /\ getitem report "total_calls" = Ok (VInt (len rs))
    /\ getitem report "successful" = Ok (VInt (count_ok rs))
    /\ getitem report "failed" = Ok (VInt (len rs - count_ok rs))
    /\ 0 <= count_ok rs <= len rs
    /\ getitem report "success_rate"
       = Ok (if len rs =? 0 then VInt 0
             else VFloat (count_ok rs # Z.to_pos (len rs))).
Proof.
  do 3 eexists.
  split; [apply (run_mitigation_serve post save_raw _ _ _ _ _ _ _ _ _ _ s
                   Hbatches Hchunks)|].
  split; [apply serve_issued|].
  split; [reflexivity|].
  split; [unfold len; now rewrite serve_length|].
  repeat (split; [reflexivity|]).
  split; [|reflexivity].
  unfold count_ok, len. split; [lia|].
  apply inj_le, filter_length_le.
Qed.

(** C4. The number of call units is (number of partitions) x (number of
    chunks); so many requests are posted and so many calls are reported in
    [total_calls].  With 25 participants, batches of 5, a 30-day range and
    3-day chunks that is 5 x 10 = 50 calls. *)
Theorem run_mitigation_call_count :
  (exists s' report,
      run_mitigation post save_raw fuel attendees start end_ batch_size
                     days_per_chunk duration max_candidates s = (s', Ok report)
      /\ len (call_units batches chunks) = len batches * len chunks
      /\ len (issued s') = len (issued s) + len batches * len chunks
      /\ getitem report "total_calls" = Ok (VInt (len batches * len chunks)))
  /\ (forall participants s0,
         List.length participants = 25%nat ->
         exists s1 report,
           run_mitigation post save_raw 11 participants jan29 feb28 5 3
                          duration max_candidates s0 = (s1, Ok report)
           /\ len (issued s1) = len (issued s0) + 50
           /\ getitem report "total_calls" = Ok (VInt 50)).
Proof.
  split.
  - do 2 eexists.
    split; [apply (run_mitigation_serve post save_raw _ _ _ _ _ _ _ _ _ _ s
                     Hbatches Hchunks)|].
    split; [apply call_units_length|].
    split.
    + rewrite serve_issued. unfold len at 1. rewrite length_app, length_map.
      rewrite <- call_units_length. unfold len. lia.
    + cbn. unfold len at 1. rewrite serve_length.
      fold (len (call_units batches chunks)). now rewrite call_units_length.
  - intros participants s0 H25.
    destruct (scenario_grid participants H25) as [bs [cs [Hb [Hc [Hnb Hnc]]]]].
    do 2 eexists.
    split; [apply (run_mitigation_serve post save_raw _ _ _ _ _ _ _ _ _ _ s0
                     Hb Hc)|].
    split.
    + rewrite serve_issued. unfold len at 1. rewrite length_app, length_map.
      assert (H50 : len (call_units bs cs) = 50)
        by (rewrite call_units_length, Hnb, Hnc; reflexivity).
      unfold len in *. lia.
    + cbn. unfold len at 1. rewrite serve_length.
      fold (len (call_units bs cs)).
      now rewrite call_units_length, Hnb, Hnc.
Qed.

(** C5. The call units are processed partition-major and chunk-minor: the
    request posted at position [i * len(chunks) + j] of the run is the one
    for partition [i] and chunk [j], the whole run is the sequential pass over
    that grid, and the result list is the list of that pass's results, in the
    same order. *)
Theorem run_mitigation_order :
  exists s' report,
    run_mitigation post save_raw fuel attendees start end_ batch_size
                   days_per_chunk duration max_candidates s = (s', Ok report)
    /\ issued s'
       = (issued s
          ++ flat_map
               (fun batch =>
                  map (fun chunk =>
                         build_request batch (isoformat (fst chunk))
                                       (isoformat (snd chunk))
                                       duration max_candidates)
                      chunks)
               batches)%list
    /\ (forall i j batch chunk,
           nth_error batches i = Some batch ->
           nth_error chunks j = Some chunk ->
           nth_error (issued s')
                     (List.length (issued s) + (i * List.length chunks + j))
           = Some (build_request batch (isoformat (fst chunk))
                                 (isoformat (snd chunk))
                                 duration max_candidates))
    /\ (s', getitem report "results")
       = (fst (serve post save_raw duration max_candidates
                 (call_units batches chunks) s),
          Ok (VList (snd (serve post save_raw duration max_candidates
                            (call_units batches chunks) s)))).
Proof.
  do 2 eexists.
  split; [apply (run_mitigation_serve post save_raw _ _ _ _ _ _ _ _ _ _ s
                   Hbatches Hchunks)|].
  split; [|split; [|reflexivity]].
  - rewrite serve_issued. f_equal. unfold call_units.
    rewrite flat_map_concat_map, concat_map, map_map, <- flat_map_concat_map.
    apply flat_map_ext. intros batch. now rewrite map_map.
  - intros i j batch chunk Hi Hj. rewrite serve_issued.
    rewrite nth_error_app2 by lia.
    replace (List.length (issued s) + (i * List.length chunks + j)
             - List.length (issued s))%nat
      with (i * List.length chunks + j)%nat by lia.
    change (build_request batch (isoformat (fst chunk)) (isoformat (snd chunk))
                          duration max_candidates)
      with (unit_request duration max_candidates (batch, chunk)).
    apply map_nth_error. now apply call_units_nth.
Qed.

End Aggregator.

(** * Configuration errors *)

Lemma filter_none {A} (f : A -> bool) (l : list A) :
  (forall x, In x l -> f x = false) -> filter f l = [].
Proof.
  induction l as [|x l IH]; intros H; [reflexivity|].
  cbn [filter]. rewrite (H x (or_introl eq_refl)).
  apply IH. intros y Hy. apply H. now right.
Qed.

(** The loader raises as soon as no comma-separated item has a visible
    character. *)
Lemma load_test_attendees_blank (environ : string -> option string) :
  environ "TEST_ATTENDEES" = None
  \/ (exists raw, environ "TEST_ATTENDEES" = Some raw
                  /\ forall item, In item (split "," raw) -> strip item = "") ->
  load_test_attendees environ = Raise missing_attendees.
Proof.
  intros [H|[raw [H Hblank]]]; unfold load_test_attendees, getenv; rewrite H;
    [reflexivity|].
  rewrite filter_none; [reflexivity|].
  intros item Hin. now rewrite (Hblank item Hin).
Qed.

(** C8. When [TEST_ATTENDEES] is missing, or present without any non-blank
    item (the empty string in particular), [load_test_attendees] raises
    [ValueError]; both drivers that reach the remote service evaluate it
    before the call, so the error comes out of them and the session, with its
    list of posted requests, is left as it was: no request is posted. *)
Theorem missing_attendees_abort_preflight {World : Type}
  (post : World -> RequestBody -> World * reply)
  (save_raw : World -> Response -> World * option exn)
  (save_result : World -> pyval -> World * option exn)
  (environ : string -> option string) (fuel : nat) (s : session World) :
  environ "TEST_ATTENDEES" = None
  \/ (exists raw, environ "TEST_ATTENDEES" = Some raw
                  /\ forall item, In item (split "," raw) -> strip item = "") ->
  load_test_attendees environ = Raise missing_attendees
  /\ test_mitigation_effectiveness post save_raw environ fuel s
     = (s, Raise missing_attendees)
  /\ reproduce_bad_gateway post save_raw save_result environ s
     = (s, Raise missing_attendees)
  /\ issued (fst (test_mitigation_effectiveness post save_raw environ fuel s))
     = issued s
  /\ issued (fst (reproduce_bad_gateway post save_raw save_result environ s))
     = issued s.
Proof.
  intros H. pose proof (load_test_attendees_blank environ H) as Hload.
  assert (Ht : test_mitigation_effectiveness post save_raw environ fuel s
               = (s, Raise missing_attendees))
    by (unfold test_mitigation_effectiveness, rbind, lift; now rewrite Hload).
  assert (Hr : reproduce_bad_gateway post save_raw save_result environ s
               = (s, Raise missing_attendees))
    by (unfold reproduce_bad_gateway, rbind, lift; now rewrite Hload).
  rewrite Ht, Hr. repeat split; assumption.
Qed.

(** * Fuel *)

(** A run of the loop that has finished is not changed by more fuel. *)
Lemma chunk_loop_more_fuel (end_ : datetime) (days : Z) (fuel : nat) :
  forall acc current r,
    chunk_loop fuel acc current end_ days = r ->
    r <> OutOfFuel ->
    forall fuel', (fuel <= fuel')%nat ->
                  chunk_loop fuel' acc current end_ days = r.
Proof.
  induction fuel as [|fuel IH]; intros acc current r Hrun Hr fuel' Hle.
  - simpl in Hrun. congruence.
  - destruct fuel' as [|fuel']; [lia|].
    cbn [chunk_loop] in *.
    destruct (current <? end_); [|exact Hrun].
    destruct (timedelta_days days) as [delta|e|]; cbn [Py.bind] in *;
      try exact Hrun.
    destruct (DateTime.add current delta) as [next|e|]; cbn [Py.bind] in *;
      try exact Hrun.
    apply (IH _ _ _ Hrun Hr). lia.
Qed.

(** * The configuration loader on well-formed input *)

Lemma split_nonempty (sep : ascii) (s : string) : split sep s <> [].
Proof.
  destruct s as [|c s]; simpl; [discriminate|].
  destruct (Ascii.eqb c sep); [discriminate|].
  destruct (split sep s); discriminate.
Qed.

(** No item of a split contains the separator. *)
Lemma split_no_sep (sep : ascii) (s : string) :
  forall item, In item (split sep s) -> ~ In sep (list_ascii_of_string item).
Proof.
  induction s as [|c s IH]; simpl; intros item Hin.
  - destruct Hin as [<-|[]]. simpl. tauto.
  - destruct (Ascii.eqb_spec c sep) as [->|Hne].
    + destruct Hin as [<-|Hin]; [simpl; tauto|now apply IH].
    + destruct (split sep s) as [|h t] eqn:E.
      * destruct Hin as [<-|[]]. simpl. intros [H|[]]. congruence.
      * destruct Hin as [<-|Hin].
        -- simpl. intros [H|H]; [congruence|].
           revert H. apply IH. now left.
        -- apply IH. now right.
Qed.

(** Splitting undoes joining, as long as no item contains the separator. *)
Lemma split_prefix (sep : ascii) (x rest : string) :
  ~ In sep (list_ascii_of_string x) ->
  split sep (x ++ String sep rest) = x :: split sep rest.
Proof.
  induction x as [|c x IH]; simpl; intros Hno.
  - now rewrite Ascii.eqb_refl.
  - destruct (Ascii.eqb_spec c sep) as [->|Hne]; [tauto|].
    rewrite IH by tauto. reflexivity.
Qed.

Lemma split_whole (sep : ascii) (x : string) :
  ~ In sep (list_ascii_of_string x) -> split sep x = [x].
Proof.
  induction x as [|c x IH]; simpl; intros Hno; [reflexivity|].
  destruct (Ascii.eqb_spec c sep) as [->|Hne]; [tauto|].
  rewrite IH by tauto. reflexivity.
Qed.

Lemma split_concat (sep : ascii) (items : list string) :
  items <> [] ->
  (forall item, In item items -> ~ In sep (list_ascii_of_string item)) ->
  split sep (String.concat (String sep EmptyString) items) = items.
Proof.
  induction items as [|x items IH]; intros Hne Hno; [congruence|].
  destruct items as [|y items].
  - simpl. apply split_whole. apply Hno. now left.
  - change (String.concat (String sep EmptyString) (x :: y :: items))
      with (x ++ String sep (String.concat (String sep EmptyString) (y :: items)))%string.
    rewrite split_prefix by (apply Hno; now left).
    f_equal. apply IH; [discriminate|].
    intros item Hin. apply Hno. now right.
Qed.

Lemma lstrip_chars (s : string) (c : ascii) :
  In c (list_ascii_of_string (lstrip s)) -> In c (list_ascii_of_string s).
Proof.
  induction s as [|d s IH]; simpl; [tauto|].
  destruct (isspace d); simpl; tauto.
Qed.

Lemma rstrip_chars (s : string) (c : ascii) :
  In c (list_ascii_of_string (rstrip s)) -> In c (list_ascii_of_string s).
Proof.
  induction s as [|d s IH]; simpl; [tauto|].
  destruct (rstrip s) as [|e r].
  - destruct (isspace d); simpl; tauto.
  - simpl in *. tauto.
Qed.

Lemma rstrip_cons (c : ascii) (s : string) :
  rstrip (String c s)
  = match rstrip s with
    | EmptyString => if isspace c then EmptyString else String c EmptyString
    | r => String c r
    end.
Proof. reflexivity. Qed.

Lemma rstrip_idempotent (s : string) : rstrip (rstrip s) = rstrip s.
Proof.
  induction s as [|c s IH]; [reflexivity|].
  rewrite rstrip_cons. destruct (rstrip s) as [|d r] eqn:E.
  - destruct (isspace c) eqn:Ec; [reflexivity|].
    rewrite rstrip_cons. simpl. now rewrite Ec.
  - rewrite rstrip_cons, IH. reflexivity.
Qed.

Lemma lstrip_rstrip_head (s : string) :
  lstrip (rstrip (lstrip s)) = rstrip (lstrip s).
Proof.
  assert (H : lstrip s = EmptyString
              \/ exists c r, lstrip s = String c r /\ isspace c = false).
  { induction s as [|c s IH]; [now left|].
    simpl. destruct (isspace c) eqn:E; [exact IH|right; eauto]. }
  destruct H as [->|[c [r [-> Hc]]]]; [reflexivity|].
  rewrite rstrip_cons. rewrite Hc.
  destruct (rstrip r); simpl; now rewrite Hc.
Qed.

(** Stripping twice is stripping once. *)
Lemma strip_idempotent (s : string) : strip (strip s) = strip s.
Proof.
  unfold strip. rewrite lstrip_rstrip_head. apply rstrip_idempotent.
Qed.

Lemma nonempty_true (s : string) : nonempty s = true <-> s <> EmptyString.
Proof.
  unfold nonempty. destruct (String.eqb_spec s ""); split; simpl; congruence.
Qed.

(** X1. A list that [load_test_attendees] returns is never empty, and each
    of its entries is non-empty, free of surrounding white space and free of
    commas. *)
Theorem load_test_attendees_clean (environ : string -> option string)
  (attendees : list string) :
  load_test_attendees environ = Ok attendees ->
  attendees <> []
  /\ forall a, In a attendees ->
               a <> EmptyString /\ strip a = a
               /\ ~ In ","%char (list_ascii_of_string a).
Proof.
  unfold load_test_attendees.
  set (raw := getenv environ "TEST_ATTENDEES" "").
  destruct (map strip (filter (fun item => nonempty (strip item)) (split "," raw)))
    as [|a0 l] eqn:E; [discriminate|].
  intros H. inversion H; subst attendees. split; [discriminate|].
  intros a Ha. rewrite <- E in Ha.
  apply in_map_iff in Ha as [item [<- Hitem]].
  apply filter_In in Hitem as [Hin Hne].
  split; [now apply nonempty_true|]. split; [apply strip_idempotent|].
  intros Hc. apply (split_no_sep "," raw item Hin).
  unfold strip in Hc. now apply lstrip_chars, rstrip_chars.
Qed.

(** X2. The loader fails exactly when no comma-separated item of the
    variable (the empty string when it is unset) has a visible character, and
    returns a list exactly when some item has one. *)
Theorem load_test_attendees_raises_iff (environ : string -> option string) :
  ((exists e, load_test_attendees environ = Raise e)
   <-> (forall item,
           In item (split "," (getenv environ "TEST_ATTENDEES" "")) ->
           strip item = EmptyString))
  /\ ((exists attendees, load_test_attendees environ = Ok attendees)
      <-> (exists item,
              In item (split "," (getenv environ "TEST_ATTENDEES" ""))
              /\ strip item <> EmptyString)).
Proof.
  unfold load_test_attendees.
  set (raw := getenv environ "TEST_ATTENDEES" "").
  assert (Hkept : forall item,
             In item (split "," raw) -> strip item <> EmptyString ->
             In (strip item)
                (map strip (filter (fun item => nonempty (strip item))
                                   (split "," raw)))).
  { intros item Hin Hnz. apply in_map, filter_In.
    split; [exact Hin|now apply nonempty_true]. }
  split; split.
  - intros [e He] item Hin.
    destruct (String.eqb_spec (strip item) "") as [Hz|Hnz]; [exact Hz|].
    pose proof (Hkept item Hin Hnz) as Hf.
    destruct (map strip _); [destruct Hf|discriminate].
  - intros Hblank. rewrite filter_none; [eexists; reflexivity|].
    intros item Hin. rewrite (Hblank item Hin). reflexivity.
  - intros [attendees Hok].
    destruct (map strip (filter (fun item => nonempty (strip item))
                                (split "," raw))) as [|a l] eqn:E;
      [discriminate|].
    assert (Ha : In a (map strip (filter (fun item => nonempty (strip item))
                                         (split "," raw))))
      by (rewrite E; now left).
    apply in_map_iff in Ha as [item [Hs Hitem]].
    apply filter_In in Hitem as [Hin Hne].
    exists item. split; [exact Hin|now apply nonempty_true].
  - intros [item [Hin Hnz]]. pose proof (Hkept item Hin Hnz) as Hf.
    destruct (map strip _); [destruct Hf|eexists; reflexivity].
Qed.

(** X3. Joining items with commas and loading them gives the stripped items
    back, in order, when no item holds a comma and none is blank; white space
    around an item is dropped. *)
Theorem load_test_attendees_join (raws : list string)
  (environ : string -> option string) :
  raws <> [] ->
  (forall r, In r raws ->
             ~ In ","%char (list_ascii_of_string r) /\ strip r <> EmptyString) ->
  environ "TEST_ATTENDEES" = Some (String.concat "," raws) ->
  load_test_attendees environ = Ok (map strip raws).
Proof.
  intros Hne Hraws Henv. unfold load_test_attendees, getenv. rewrite Henv.
  rewrite split_concat by (trivial; intros r Hr; now apply Hraws).
  assert (Hall : filter (fun item => nonempty (strip item)) raws = raws).
  { clear Hne Henv. induction raws as [|r raws IH]; [reflexivity|].
    cbn [filter].
    replace (nonempty (strip r)) with true
      by (symmetry; apply nonempty_true, Hraws; now left).
    f_equal. apply IH. intros x Hx. apply Hraws. now right. }
  rewrite Hall. destruct raws; [congruence|reflexivity].
Qed.

(** * Time slots *)

Lemma replace_midnight_bounds (t : datetime) :
  0 <= t ->
  0 <= replace_midnight t <= t /\ replace_midnight t mod US_PER_DAY = 0.
Proof.
  intros Ht. unfold replace_midnight.
  assert (Hd : 0 < US_PER_DAY) by (unfold US_PER_DAY, US_PER_SECOND; lia).
  pose proof (Z.mod_pos_bound t US_PER_DAY Hd) as Hm.
  pose proof (Z.mod_le t US_PER_DAY Ht Hd) as Hle.
  split; [lia|].
  rewrite Zminus_mod_idemp_r, Z.sub_diag. reflexivity.
Qed.

Lemma seq_offset (a c : nat) : seq a c = map (Nat.add a) (seq 0 c).
Proof.
  revert a. induction c as [|c IH]; intros a; [reflexivity|].
  cbn [seq map]. rewrite Nat.add_0_r. f_equal.
  rewrite (IH (S a)), (IH 1%nat), map_map. apply map_ext. intros k. lia.
Qed.

Section Slots.

Variables (date : datetime) (slot_minutes : Z).

Hypothesis Haligned : date mod US_PER_DAY = 0.
Hypothesis Hlow : 0 <= date.
Hypothesis Hfirst : 0 <= date + slot_minutes * US_PER_MINUTE.
Hypothesis Hlast :
  date + 23 * US_PER_HOUR + Z.max 0 (slot_minutes * US_PER_MINUTE)
  <= datetime_max.

Lemma timedelta_minutes_fits :
  timedelta_minutes slot_minutes = Ok (slot_minutes * US_PER_MINUTE).
Proof.
  unfold timedelta_minutes.
  assert (Hd : 0 < US_PER_DAY) by (unfold US_PER_DAY, US_PER_SECOND; lia).
  assert (Hb : - datetime_max <= slot_minutes * US_PER_MINUTE <= datetime_max)
    by (unfold US_PER_HOUR, US_PER_MINUTE, US_PER_SECOND in *; lia).
  pose proof (Z.div_le_mono _ _ US_PER_DAY Hd (proj2 Hb)) as Hhi.
  pose proof (Z.div_le_mono _ _ US_PER_DAY Hd (proj1 Hb)) as Hlo.
  assert (Hq1 : datetime_max / US_PER_DAY = 3652058) by reflexivity.
  assert (Hq2 : - datetime_max / US_PER_DAY = -3652059) by reflexivity.
  destruct (Z.leb_spec (Z.abs (slot_minutes * US_PER_MINUTE / US_PER_DAY))
              MAX_DELTA_DAYS) as [_|Hbad]; [reflexivity|].
  unfold MAX_DELTA_DAYS in Hbad. lia.
Qed.

(** One day of slots: one per hour of the list, in order. *)
Lemma slots_of_hours_run (hours : list Z) : forall slots,
  (forall h, In h hours -> 0 <= h <= 23) ->
  slots_of_hours date slot_minutes hours slots
  = Ok (slots
        ++ map (fun h => slot_entry (date + h * US_PER_HOUR)
                                    (date + h * US_PER_HOUR
                                     + slot_minutes * US_PER_MINUTE))
               hours)%list.
Proof.
  induction hours as [|h rest IH]; intros slots Hh.
  - simpl. now rewrite app_nil_r.
  - cbn [slots_of_hours map].
    pose proof (Hh h (or_introl eq_refl)) as Hr.
    unfold replace_hour_minute.
    destruct (Z.leb_spec 0 h); [|lia]. destruct (Z.leb_spec h 23); [|lia].
    change (negb ((0 <=? 0) && (0 <=? 59))) with false.
    cbn [andb negb].
    assert (Hmid : replace_midnight date = date)
      by (unfold replace_midnight; rewrite Haligned; lia).
    assert (Hmin : date mod US_PER_MINUTE = 0).
    { apply Z.mod_divide in Haligned;
        [|unfold US_PER_DAY, US_PER_SECOND; lia].
      apply Z.mod_divide; [unfold US_PER_MINUTE, US_PER_SECOND; lia|].
      destruct Haligned as [q Hq]. exists (q * 1440).
      rewrite Hq. unfold US_PER_DAY, US_PER_MINUTE. lia. }
    rewrite Hmid, Hmin. cbn [Py.bind].
    rewrite timedelta_minutes_fits. cbn [Py.bind].
    replace (date + h * US_PER_HOUR + 0 * US_PER_MINUTE + 0)
      with (date + h * US_PER_HOUR) by lia.
    assert (Hin : in_range (date + h * US_PER_HOUR
                            + slot_minutes * US_PER_MINUTE) = true).
    { unfold in_range. apply andb_true_intro.
      unfold US_PER_HOUR, US_PER_MINUTE, US_PER_SECOND in *.
      split; apply Z.leb_le; lia. }
    unfold DateTime.add. rewrite Hin. cbn [Py.bind].
    rewrite IH by (intros k Hk; apply Hh; now right).
    now rewrite <- app_assoc.
Qed.

End Slots.

(** Under the range conditions the slots are the hourly grid, in order. *)
Lemma generate_time_slots_closed (start_date : datetime) (num_days slot_minutes : Z) :
  0 <= start_date ->
  0 <= replace_midnight start_date + slot_minutes * US_PER_MINUTE ->
  replace_midnight start_date + (Z.max 1 num_days - 1) * US_PER_DAY
  + 23 * US_PER_HOUR + Z.max 0 (slot_minutes * US_PER_MINUTE) <= datetime_max ->
  generate_time_slots start_date num_days slot_minutes
  = Ok (map (slot_at start_date slot_minutes)
            (seq 0 (24 * Z.to_nat num_days))).
Proof.
  intros Hstart Hfirst Hlast.
  destruct (replace_midnight_bounds start_date Hstart) as [[Hm0 Hm1] Hal].
  set (mid := replace_midnight start_date) in *.
  set (n := Z.to_nat num_days).
  assert (Hday : US_PER_DAY = 24 * US_PER_HOUR) by reflexivity.
  assert (Hhour : 0 < US_PER_HOUR) by reflexivity.
  assert (Hrun : forall c a,
             (a + c = n)%nat ->
             slots_of_days mid slot_minutes
               (map (fun k => 0 + Z.of_nat k * 1) (seq a c))
               (map (slot_at start_date slot_minutes) (seq 0 (24 * a)))
             = Ok (map (slot_at start_date slot_minutes) (seq 0 (24 * n)))).
  { induction c as [|c IH]; intros a Hac.
    - simpl. replace a with n by lia. reflexivity.
    - cbn [seq map slots_of_days].
      assert (Ha : Z.of_nat a < num_days) by lia.
      replace (0 + Z.of_nat a * 1) with (Z.of_nat a) by lia.
      unfold timedelta_days.
      assert (Hsmall : Z.of_nat a * US_PER_DAY <= datetime_max) by nia.
      destruct (Z.leb_spec (Z.abs (Z.of_nat a)) MAX_DELTA_DAYS) as [_|Hbad];
        [|unfold MAX_DELTA_DAYS, datetime_max, MAX_ORDINAL, US_PER_DAY,
            US_PER_SECOND in *; lia].
      cbn [Py.bind].
      assert (Hin : in_range (mid + Z.of_nat a * US_PER_DAY) = true).
      { unfold in_range. apply andb_true_intro.
        split; apply Z.leb_le; nia. }
      unfold DateTime.add at 1. rewrite Hin. cbn [Py.bind].
      change (range 0 24 1)
        with (Ok (map (fun k => 0 + Z.of_nat k * 1) (seq 0 24))).
      cbn [Py.bind].
      rewrite slots_of_hours_run.
      + cbn [Py.bind].
        replace (map (slot_at start_date slot_minutes) (seq 0 (24 * a))
                 ++ map (fun h => slot_entry
                                    (mid + Z.of_nat a * US_PER_DAY + h * US_PER_HOUR)
                                    (mid + Z.of_nat a * US_PER_DAY + h * US_PER_HOUR
                                     + slot_minutes * US_PER_MINUTE))
                        (map (fun k => 0 + Z.of_nat k * 1) (seq 0 24)))%list
          with (map (slot_at start_date slot_minutes) (seq 0 (24 * S a))).
        * apply IH. lia.
        * replace (24 * S a)%nat with (24 * a + 24)%nat by lia.
          rewrite seq_app, map_app. f_equal. cbn [Nat.add].
          rewrite (seq_offset (24 * a) 24), !map_map.
          apply map_ext. intros k. unfold slot_at. fold mid.
          f_equal; nia.
      + rewrite Z.add_mod, Hal, Z_mod_mult by (rewrite Hday; lia).
        reflexivity.
      + nia.
      + nia.
      + nia.
      + intros h Hh. apply in_map_iff in Hh as [k [<- Hk]].
        apply in_seq in Hk. lia. }
  unfold generate_time_slots, range. cbn [Z.eqb Py.bind]. fold mid.
  replace (Z.to_nat (range_len 0 num_days 1)) with n.
  - apply (Hrun n 0%nat). lia.
  - unfold range_len. cbn [Z.ltb Z.compare].
    destruct (Z.ltb_spec 0 num_days); [|lia].
    rewrite Z.div_1_r. lia.
Qed.

(** X4. [generate_time_slots] lays an hourly grid over whole days: as long
    as the first slot does not end before [datetime.min] and the last slot
    starts and ends within [datetime.max], it
    returns 24 slots per day ([range(num_days)] being empty for a count
    below one), and slot [k] starts [k] hours after midnight of the start
    date and ends [slot_minutes] later. *)
Theorem generate_time_slots_grid (start_date : datetime) (num_days slot_minutes : Z) :
  0 <= start_date ->
  0 <= replace_midnight start_date + slot_minutes * US_PER_MINUTE ->
  replace_midnight start_date + (Z.max 1 num_days - 1) * US_PER_DAY
  + 23 * US_PER_HOUR + Z.max 0 (slot_minutes * US_PER_MINUTE) <= datetime_max ->
  exists slots,
    generate_time_slots start_date num_days slot_minutes = Ok slots
    /\ len slots = 24 * Z.max 0 num_days
    /\ forall k, Z.of_nat k < 24 * num_days ->
                 nth_error slots k = Some (slot_at start_date slot_minutes k).
Proof.
  intros Hstart Hfirst Hlast.
  exists (map (slot_at start_date slot_minutes) (seq 0 (24 * Z.to_nat num_days))).
  split; [now apply generate_time_slots_closed|]. split.
  - unfold len. rewrite length_map, length_seq. lia.
  - intros k Hk. rewrite nth_error_map, nth_error_seq.
    destruct (Nat.ltb_spec k (24 * Z.to_nat num_days)); [reflexivity|lia].
Qed.

(** * Event creation *)

Lemma getitem_cases (d : pyval) (k : string) :
  (exists v, getitem d k = Ok v) \/ (exists e, getitem d k = Raise e).
Proof.
  destruct d; simpl; eauto. destruct (assoc k d); eauto.
Qed.

Section CreateEventsFacts.

Context {World : Type}.
Variable post_event : World -> string -> Event -> World * option exn.
Variables (subject_prefix : string) (log_every : Z).

(** One slot: the guarded body always yields a tally, one more in exactly
    one of its counters, and posts at most the planned event. *)
Lemma create_step (attendee : string) (i : Z) (slot : pyval) (t : created_tally)
  (m : mailbox World) :
  exists m' t',
    etry (create_body post_event subject_prefix attendee i slot t)
         (fun _ => eret (mkCreated (created t) (errors t + 1))) m
    = (m', Ok t')
    /\ mb_posted m'
       = (mb_posted m ++ planned_events subject_prefix attendee i [slot])%list
    /\ ((created t' = created t + 1 /\ errors t' = errors t
         /\ List.length (planned_events subject_prefix attendee i [slot]) = 1%nat)
        \/ (created t' = created t /\ errors t' = errors t + 1)).
Proof.
  unfold etry, create_body, ebind, elift, do_post_event, eret.
  cbn [planned_events].
  destruct (getitem_cases slot "start") as [[v0 ->]|[e0 ->]].
  2:{ exists m. eexists. split; [reflexivity|].
      split; [now rewrite app_nil_r|right; split; reflexivity]. }
  destruct (getitem_cases slot "end") as [[v1 ->]|[e1 ->]].
  2:{ exists m. eexists. split; [reflexivity|].
      split; [now rewrite app_nil_r|right; split; reflexivity]. }
  destruct (post_event (mb_world m) attendee _) as [w [e|]].
  - eexists. eexists. split; [reflexivity|].
    split; [reflexivity|right; split; reflexivity].
  - eexists. eexists. split; [reflexivity|].
    split; [reflexivity|left; repeat split].
Qed.

Lemma planned_events_cons (attendee : string) (i : Z) (slot : pyval)
  (rest : list pyval) :
  planned_events subject_prefix attendee i (slot :: rest)
  = (planned_events subject_prefix attendee i [slot]
     ++ planned_events subject_prefix attendee (i + 1) rest)%list.
Proof. cbn [planned_events]. now rewrite app_nil_r. Qed.

Lemma planned_events_length (attendee : string) (slots : list pyval) :
  forall i,
    (List.length (planned_events subject_prefix attendee i slots)
     <= List.length slots)%nat.
Proof.
  induction slots as [|slot rest IH]; intros i; [simpl; lia|].
  cbn [planned_events]. rewrite length_app. specialize (IH (i + 1)).
  destruct (getitem slot "start"); [|simpl; lia..].
  destruct (getitem slot "end"); simpl; lia.
Qed.

Hypothesis Hlog : log_every <> 0.

Lemma create_for_slots_accounts (attendee : string) (slots : list pyval) :
  forall i t m,
  exists m' t',
    create_for_slots post_event subject_prefix attendee log_every i slots t m
    = (m', Ok t')
    /\ mb_posted m'
       = (mb_posted m ++ planned_events subject_prefix attendee i slots)%list
    /\ created t <= created t' /\ errors t <= errors t'
    /\ (created t' - created t) + (errors t' - errors t) = len slots
    /\ created t' - created t
       <= len (planned_events subject_prefix attendee i slots).
Proof.
  induction slots as [|slot rest IH]; intros i t m.
  - exists m, t. cbn. unfold len. simpl. repeat split; try lia.
    now rewrite app_nil_r.
  - cbn [create_for_slots]. unfold ebind at 1.
    destruct (create_step attendee i slot t m) as [m1 [t1 [Hrun [Hp Hc]]]].
    rewrite Hrun. unfold ebind, elift, py_mod.
    destruct (Z.eqb_spec log_every 0) as [?|_]; [contradiction|].
    destruct (IH (i + 1) t1 m1) as [m2 [t2 [Hrun2 [Hp2 [Hc2 [He2 [Hsum Hle]]]]]]].
    exists m2, t2. split; [exact Hrun2|].
    rewrite planned_events_cons.
    split; [rewrite Hp2, Hp; now rewrite app_assoc|].
    unfold len in *. rewrite length_app. cbn [List.length].
    destruct Hc as [[H1 [H2 H3]]|[H1 H2]]; repeat split; lia.
Qed.

(** All attendees: the counters grow by one per attendee and slot, and the
    posts attempted are the planned ones, attendee by attendee. *)
Lemma create_for_attendees_accounts (slots : list pyval)
  (attendees : list string) :
  forall t m,
  exists m' t',
    create_for_attendees post_event subject_prefix log_every
                         attendees slots t m = (m', Ok t')
    /\ mb_posted m'
       = (mb_posted m
          ++ flat_map (fun a => planned_events subject_prefix a 1 slots)
                      attendees)%list
    /\ created t <= created t' /\ errors t <= errors t'
    /\ (created t' - created t) + (errors t' - errors t)
       = len attendees * len slots
    /\ created t' - created t
       <= len (flat_map (fun a => planned_events subject_prefix a 1 slots)
                        attendees).
Proof.
  induction attendees as [|a rest IH]; intros t m.
  - exists m, t. cbn. unfold len. simpl. repeat split; try lia.
    now rewrite app_nil_r.
  - cbn [create_for_attendees flat_map]. unfold ebind.
    destruct (create_for_slots_accounts a slots 1 t m)
      as [m1 [t1 [Hrun [Hp [Hc [He [Hsum Hle]]]]]]].
    rewrite Hrun.
    destruct (IH t1 m1) as [m2 [t2 [Hrun2 [Hp2 [Hc2 [He2 [Hsum2 Hle2]]]]]]].
    exists m2, t2. split; [exact Hrun2|].
    split; [rewrite Hp2, Hp; now rewrite app_assoc|].
    unfold len in *. rewrite length_app. cbn [List.length].
    repeat split; nia.
Qed.


End CreateEventsFacts.

(** X6. With [log_every = 0] the progress test [i % log_every] divides by
    zero outside the [try]: as soon as there is an attendee with a slot,
    [create_test_events] raises [ZeroDivisionError] after that first slot has
    been handled; with no attendee or no slot it returns zero counts. *)
Theorem create_test_events_zero_log_every {World : Type}
  (post_event : World -> string -> Event -> World * option exn)
  (subject_prefix : string) (attendees : list string) (slots : list pyval)
  (m : mailbox World) :
  (attendees = [] \/ slots = [] ->
   create_test_events post_event attendees slots subject_prefix 0 m
   = (m, Ok (VDict [("created", VInt 0); ("errors", VInt 0)])))
  /\ (forall a rest slot more,
         attendees = a :: rest -> slots = slot :: more ->
         exists m',
           create_test_events post_event attendees slots subject_prefix 0 m
           = (m', Raise (mkExn "ZeroDivisionError" None "integer modulo by zero"))
           /\ mb_posted m'
              = (mb_posted m ++ planned_events subject_prefix a 1 [slot])%list).
Proof.
  split.
  - intros [->| ->]; [reflexivity|].
    unfold create_test_events, ebind.
    assert (H : forall t, create_for_attendees post_event subject_prefix 0
                            attendees [] t m = (m, Ok t)).
    { induction attendees as [|a rest IH]; intros t; [reflexivity|].
      cbn [create_for_attendees create_for_slots]. unfold ebind, eret.
      apply IH. }
    now rewrite H.
  - intros a rest slot more -> ->.
    unfold create_test_events.
    cbn [create_for_attendees create_for_slots]. unfold ebind.
    destruct (create_step post_event subject_prefix a 1 slot (mkCreated 0 0) m)
      as [m1 [t1 [Hrun [Hp _]]]].
    rewrite Hrun. exists m1. split; [reflexivity|exact Hp].
Qed.

(** Every slot that [generate_time_slots] builds has its two keys. *)
Lemma slots_of_hours_keys (date : datetime) (slot_minutes : Z) (hours : list Z) :
  forall acc slots,
    slots_of_hours date slot_minutes hours acc = Ok slots ->
    Forall (fun slot => exists v0 v1, getitem slot "start" = Ok v0
                                      /\ getitem slot "end" = Ok v1) acc ->
    Forall (fun slot => exists v0 v1, getitem slot "start" = Ok v0
                                      /\ getitem slot "end" = Ok v1) slots.
Proof.
  induction hours as [|h rest IH]; intros acc slots Hrun Hacc.
  - simpl in Hrun. now inversion Hrun; subst.
  - cbn [slots_of_hours] in Hrun.
    destruct (replace_hour_minute date h 0) as [start_dt|e|];
      cbn [Py.bind] in Hrun; try discriminate.
    destruct (timedelta_minutes slot_minutes) as [delta|e|];
      cbn [Py.bind] in Hrun; try discriminate.
    destruct (DateTime.add start_dt delta) as [end_dt|e|];
      cbn [Py.bind] in Hrun; try discriminate.
    apply (IH _ _ Hrun). apply Forall_app. split; [exact Hacc|].
    constructor; [|constructor]. do 2 eexists. split; reflexivity.
Qed.

Lemma generate_time_slots_keys (start_date : datetime) (num_days slot_minutes : Z)
  (slots : list pyval) :
  generate_time_slots start_date num_days slot_minutes = Ok slots ->
  Forall (fun slot => exists v0 v1, getitem slot "start" = Ok v0
                                    /\ getitem slot "end" = Ok v1) slots.
Proof.
  unfold generate_time_slots.
  destruct (range 0 num_days 1) as [days|e|]; cbn [Py.bind]; try discriminate.
  generalize (@nil pyval) (@Forall_nil pyval
    (fun slot => exists v0 v1, getitem slot "start" = Ok v0
                               /\ getitem slot "end" = Ok v1)).
  induction days as [|day rest IH]; intros acc Hacc Hrun.
  - simpl in Hrun. now inversion Hrun; subst.
  - cbn [slots_of_days] in Hrun.
    destruct (timedelta_days day) as [delta|e|]; cbn [Py.bind] in Hrun;
      try discriminate.
    destruct (DateTime.add (replace_midnight start_date) delta) as [date|e|];
      cbn [Py.bind] in Hrun; try discriminate.
    destruct (range 0 24 1) as [hours|e|]; cbn [Py.bind] in Hrun;
      try discriminate.
    destruct (slots_of_hours date slot_minutes hours acc) as [acc'|e|] eqn:E;
      cbn [Py.bind] in Hrun; try discriminate.
    apply (IH acc'); [|exact Hrun].
    now apply (slots_of_hours_keys _ _ _ _ _ E).
Qed.

Lemma planned_events_full (subject_prefix attendee : string) (slots : list pyval) :
  Forall (fun slot => exists v0 v1, getitem slot "start" = Ok v0
                                    /\ getitem slot "end" = Ok v1) slots ->
  forall i,
    List.length (planned_events subject_prefix attendee i slots)
    = List.length slots.
Proof.
  induction 1 as [|slot rest [v0 [v1 [H0 H1]]] _ IH]; intros i; [reflexivity|].
  cbn [planned_events]. rewrite H0, H1, length_app, IH. reflexivity.
Qed.

(** X7. Slots made by [generate_time_slots] are all postable: with a
    non-zero [log_every], [create_test_events] attempts exactly one post per
    attendee and generated slot, and reports as many outcomes. *)
Theorem create_test_events_generated {World : Type}
  (post_event : World -> string -> Event -> World * option exn)
  (subject_prefix : string) (log_every : Z) (attendees : list string)
  (start_date : datetime) (num_days slot_minutes : Z) (slots : list pyval)
  (m : mailbox World) :
  log_every <> 0 ->
  generate_time_slots start_date num_days slot_minutes = Ok slots ->
  exists m' c e,
    create_test_events post_event attendees slots subject_prefix log_every m
    = (m', Ok (VDict [("created", VInt c); ("errors", VInt e)]))
    /\ c + e = len attendees * len slots
    /\ len (mb_posted m') = len (mb_posted m) + len attendees * len slots.
Proof.
  intros Hlog Hgen.
  destruct (create_for_attendees_accounts post_event subject_prefix log_every
              Hlog slots attendees (mkCreated 0 0) m)
    as [m' [t' [Hloop [Hp [_ [_ [Hsum _]]]]]]].
  cbn [created errors] in Hsum.
  assert (Hrun : create_test_events post_event attendees slots subject_prefix
                                    log_every m
                 = (m', Ok (VDict [("created", VInt (created t'));
                                   ("errors", VInt (errors t'))])))
    by (unfold create_test_events, ebind, eret; now rewrite Hloop).
  exists m', (created t'), (errors t').
  split; [exact Hrun|]. split; [lia|].
  rewrite Hp. unfold len. rewrite length_app.
  assert (Hlen : List.length
                   (flat_map (fun a => planned_events subject_prefix a 1 slots)
                             attendees)
                 = (List.length attendees * List.length slots)%nat).
  { pose proof (generate_time_slots_keys _ _ _ _ Hgen) as Hkeys.
    clear - Hkeys.
    induction attendees as [|a rest IH]; [reflexivity|].
    cbn [flat_map List.length]. rewrite length_app, IH.
    rewrite (planned_events_full subject_prefix a slots Hkeys). lia. }
  rewrite Hlen. lia.
Qed.

(** X18. The entry point of create_events.py.  When building the client
    raises, that error ends it before anything else is done.  Otherwise,
    started at a time [now] whose next sixty days fit the range of [datetime],
    it attempts 1440 posts (60 days of 24 slots) per attendee and ends
    normally whatever the service answers when the attendees can be loaded,
    and ends with the loader's error, nothing posted, when they cannot. *)
Theorem create_events_main_posts {World : Type}
  (post_event : World -> string -> Event -> World * option exn)
  (new_client : option string -> option string -> option string -> option exn)
  (environ : string -> option string) (now : datetime) (m : mailbox World) :
  0 <= now ->
  replace_midnight now + 59 * US_PER_DAY + 23 * US_PER_HOUR + 30 * US_PER_MINUTE
  <= datetime_max ->
  (forall e,
      get_app_client new_client environ = Raise e ->
      create_events_main post_event new_client environ now m = (m, Raise e))
  /\ (get_app_client new_client environ = Ok tt ->
      (forall attendees,
          load_test_attendees environ = Ok attendees ->
          exists m',
            create_events_main post_event new_client environ now m = (m', Ok tt)
            /\ len (mb_posted m') = len (mb_posted m) + 1440 * len attendees)
      /\ (forall e,
             load_test_attendees environ = Raise e ->
             create_events_main post_event new_client environ now m
             = (m, Raise e))).
Proof.
  intros Hnow Hmax.
  split.
  { intros e Hclient. unfold create_events_main, ebind, elift.
    now rewrite Hclient. }
  intros Hclient.
  destruct (replace_midnight_bounds now Hnow) as [[Hm0 _] _].
  assert (Hgen : generate_time_slots now 60 30
                 = Ok (map (slot_at now 30) (seq 0 (24 * Z.to_nat 60)))).
  { apply generate_time_slots_closed;
      [exact Hnow|unfold US_PER_MINUTE, US_PER_SECOND; lia|].
    replace (Z.max 1 60 - 1) with 59 by reflexivity.
    replace (Z.max 0 (30 * US_PER_MINUTE)) with (30 * US_PER_MINUTE)
      by reflexivity.
    exact Hmax. }
  set (slots := map (slot_at now 30) (seq 0 (24 * Z.to_nat 60))) in *.
  assert (Hslots : List.length slots = 1440%nat)
    by (unfold slots; rewrite length_map, length_seq; reflexivity).
  split.
  - intros attendees Hload.
    destruct (create_for_attendees_accounts post_event "TEST_502_" 50
                ltac:(discriminate) slots attendees (mkCreated 0 0) m)
      as [m' [t' [Hloop [Hp _]]]].
    exists m'. split.
    + unfold create_events_main, ebind, elift. rewrite Hclient, Hgen, Hload.
      unfold create_test_events, ebind, eret. rewrite Hloop. reflexivity.
    + rewrite Hp. unfold len. rewrite length_app.
      assert (Hlen : List.length
                       (flat_map (fun a => planned_events "TEST_502_" a 1 slots)
                                 attendees)
                     = (List.length attendees * 1440)%nat).
      { pose proof (generate_time_slots_keys _ _ _ _ Hgen) as Hkeys.
        clear - Hkeys Hslots.
        induction attendees as [|a rest IH]; [reflexivity|].
        cbn [flat_map List.length]. rewrite length_app, IH.
        rewrite (planned_events_full "TEST_502_" a slots Hkeys), Hslots. lia. }
      rewrite Hlen. lia.
  - intros e Hload.
    unfold create_events_main, ebind, elift. now rewrite Hclient, Hgen, Hload.
Qed.

(** * Event cleanup *)

Lemma prefix_spec (needle hay : string) :
  String.prefix needle hay = true <-> exists post, hay = (needle ++ post)%string.
Proof.
  revert hay. induction needle as [|c needle IH]; intros hay.
  - split; [intros _; now exists hay|intros _; now destruct hay].
  - destruct hay as [|d hay]; cbn [String.prefix String.append].
    + split; [discriminate|intros [post H]; discriminate].
    + destruct (ascii_dec c d) as [->|Hne].
      * rewrite IH. split; intros [post H]; exists post; congruence.
      * split; [discriminate|]. intros [post H]. congruence.
Qed.

(** [needle in hay] holds exactly when [hay] is some text, [needle], and
    some more text. *)
Lemma contains_spec (needle hay : string) :
  contains needle hay = true
  <-> exists pre post, hay = (pre ++ needle ++ post)%string.
Proof.
  induction hay as [|d hay IH].
  - cbn [contains]. rewrite orb_false_r, prefix_spec. split.
    + intros [post H]. now exists EmptyString, post.
    + intros [pre [post H]]. destruct pre; [now exists post|discriminate].
  - cbn [contains]. rewrite orb_true_iff, prefix_spec, IH. split.
    + intros [[post H]|[pre [post H]]].
      * now exists EmptyString, post.
      * exists (String d pre), post. simpl. now rewrite H.
    + intros [pre [post H]]. destruct pre as [|c pre].
      * left. now exists post.
      * right. exists pre, post. simpl in H. congruence.
Qed.

Lemma extend_events_app (acc : list CalEvent) (page : option EventPage) :
  extend_events acc page = (acc ++ extend_events [] page)%list.
Proof.
  unfold extend_events. destruct page as [p|]; [|now rewrite app_nil_r].
  destruct (page_value p) as [[|e rest]|]; now rewrite ?app_nil_r.
Qed.

Lemma exchanged_events_app (xs ys : list (string * page_reply)) :
  exchanged_events (xs ++ ys) = (exchanged_events xs ++ exchanged_events ys)%list.
Proof. unfold exchanged_events. apply flat_map_app. Qed.

Section CleanupFacts.

Context {World : Type}.
Variable send_async : World -> string -> World * page_reply.
Variable delete_event : World -> string -> option string -> World * option exn.

(** The pagination loop from a live link: a finished chain of pages, a GET
    that raised after a chain of pages, or as many pages as there was fuel,
    the last still pointing further. *)
Lemma follow_links_cases (fuel : nat) : forall acc url next_link c,
  live_link next_link = Some url ->
  exists c' xs,
    cl_exchanges c' = (cl_exchanges c ++ xs)%list
    /\ cl_deletions c' = cl_deletions c /\ cl_tally c' = cl_tally c
    /\ ((follow_links send_async fuel acc next_link c
         = (c', Ok (acc ++ exchanged_events xs)%list)
         /\ chain_to url xs None /\ (List.length xs <= fuel)%nat)
        \/ (exists e ys u,
              follow_links send_async fuel acc next_link c = (c', Raise e)
              /\ xs = (ys ++ [(u, PageThrows e)])%list
              /\ (List.length xs <= fuel)%nat
              /\ ((ys = [] /\ u = url) \/ chain_to url ys (Some u)))
        \/ (follow_links send_async fuel acc next_link c = (c', OutOfFuel)
            /\ List.length xs = fuel
            /\ (fuel = 0%nat \/ exists u, chain_to url xs (Some u)))).
Proof.
  induction fuel as [|fuel IH]; intros acc url next_link c Hlive.
  - exists c, []. rewrite app_nil_r. do 3 (split; [reflexivity|]).
    right. right. cbn [follow_links]. rewrite Hlive. auto.
  - assert (Hstep :
      follow_links send_async (S fuel) acc next_link c
      = match send_async (cl_world c) url with
        | (w, PageReturns page) =>
            follow_links send_async fuel (extend_events acc page)
              (next_link_of page)
              (mkCleaner w (cl_tally c)
                 (cl_exchanges c ++ [(url, PageReturns page)]) (cl_deletions c))
        | (w, PageThrows e) =>
            (mkCleaner w (cl_tally c)
               (cl_exchanges c ++ [(url, PageThrows e)]) (cl_deletions c),
             Raise e)
        end).
    { cbn [follow_links]. rewrite Hlive. unfold ebind, do_send.
      now destruct (send_async (cl_world c) url) as [w [page|e]]. }
    rewrite Hstep. clear Hstep.
    destruct (send_async (cl_world c) url) as [w [page|e]].
    2:{ exists (mkCleaner w (cl_tally c)
                          (cl_exchanges c ++ [(url, PageThrows e)])
                          (cl_deletions c)), [(url, PageThrows e)].
        cbn [cl_exchanges cl_deletions cl_tally].
        do 3 (split; [reflexivity|]).
        right. left. exists e, [], url.
        split; [reflexivity|]. split; [reflexivity|].
        split; [simpl; lia|]. left. split; reflexivity. }
    set (c1 := mkCleaner w (cl_tally c) (cl_exchanges c ++ [(url, PageReturns page)])
                         (cl_deletions c)).
    destruct (live_link (next_link_of page)) as [url'|] eqn:Hnext.
    + destruct (IH (extend_events acc page) url' (next_link_of page) c1 Hnext)
        as [c' [xs [Hx [Hd [Ht Hcases]]]]].
      exists c', ((url, PageReturns page) :: xs).
      split; [rewrite Hx; unfold c1; cbn [cl_exchanges];
              now rewrite <- app_assoc|].
      split; [rewrite Hd; reflexivity|]. split; [rewrite Ht; reflexivity|].
      destruct Hcases as [[Hrun [Hch Hlen]]|[[e [ys [u [Hrun [Hxs [Hlen Hch]]]]]]
                                            |[Hrun [Hlen Hch]]]].
      * left. split; [|split; [|simpl; lia]].
        -- rewrite Hrun. do 2 f_equal.
           rewrite (extend_events_app acc page), <- app_assoc. f_equal.
        -- cbn [chain_to]. split; [reflexivity|]. exists page.
           split; [reflexivity|].
           destruct xs as [|x xs']; [destruct Hch|]. eauto.
      * right. left. exists e, ((url, PageReturns page) :: ys), u.
        split; [exact Hrun|]. split; [now rewrite Hxs|].
        split; [simpl; lia|]. right.
        cbn [chain_to]. split; [reflexivity|]. exists page.
        split; [reflexivity|].
        destruct Hch as [[-> ->]|Hch]; [exact Hnext|].
        destruct ys as [|y ys']; [destruct Hch|]. eauto.
      * right. right. split; [exact Hrun|]. split; [simpl; lia|].
        right. destruct Hch as [->|[u Hch]].
        -- destruct xs; [|discriminate]. exists url'.
           cbn [chain_to]. split; [reflexivity|]. eauto.
        -- exists u. cbn [chain_to]. split; [reflexivity|]. exists page.
           split; [reflexivity|].
           destruct xs as [|x xs']; [destruct Hch|]. eauto.
    + exists c1, [(url, PageReturns page)].
      unfold c1. cbn [cl_exchanges cl_deletions cl_tally].
      do 3 (split; [reflexivity|]).
      left. split; [|split; [|simpl; lia]].
      * destruct fuel; cbn [follow_links]; rewrite Hnext; unfold eret;
          cbn [exchanged_events flat_map snd]; rewrite app_nil_r;
          now rewrite (extend_events_app acc page).
      * cbn [chain_to]. split; [reflexivity|]. exists page. auto.
Qed.

Lemma follow_links_done (fuel : nat) (acc : list CalEvent)
  (next_link : option string) (c : cleaner World) :
  live_link next_link = None ->
  follow_links send_async fuel acc next_link c = (c, Ok acc).
Proof. intros H. destruct fuel; cbn [follow_links]; now rewrite H. Qed.

(** X8. [_fetch_events_for_user] sends its first GET to the user's events
    URL and then one GET per next link.  It returns exactly when a page
    without next link is reached, with the events of all pages in order; it
    raises exactly when a GET raises; otherwise it is still following links
    after [fuel] further pages.  It requests no deletion. *)
Theorem fetch_events_follows_links (fuel : nat) (user_id : string)
  (c : cleaner World) :
  exists c' xs,
    cl_exchanges c' = (cl_exchanges c ++ xs)%list
    /\ cl_deletions c' = cl_deletions c
    /\ ((_fetch_events_for_user send_async fuel user_id c
         = (c', Ok (exchanged_events xs))
         /\ chain_to (events_url user_id) xs None
         /\ (List.length xs <= S fuel)%nat)
        \/ (exists e ys u,
              _fetch_events_for_user send_async fuel user_id c = (c', Raise e)
              /\ xs = (ys ++ [(u, PageThrows e)])%list
              /\ ((ys = [] /\ u = events_url user_id)
                  \/ chain_to (events_url user_id) ys (Some u)))
        \/ (_fetch_events_for_user send_async fuel user_id c = (c', OutOfFuel)
            /\ List.length xs = S fuel
            /\ exists u, chain_to (events_url user_id) xs (Some u))).
Proof.
  unfold _fetch_events_for_user, ebind, do_send.
  destruct (send_async (cl_world c) (events_url user_id)) as [w [page|e]].
  2:{ exists (mkCleaner w (cl_tally c)
                        (cl_exchanges c ++ [(events_url user_id, PageThrows e)])
                        (cl_deletions c)),
             [(events_url user_id, PageThrows e)].
      cbn [cl_exchanges cl_deletions].
      do 2 (split; [reflexivity|]). right. left.
      exists e, [], (events_url user_id). auto. }
  set (c1 := mkCleaner w (cl_tally c)
               (cl_exchanges c ++ [(events_url user_id, PageReturns page)])
               (cl_deletions c)).
  destruct (live_link (next_link_of page)) as [url|] eqn:Hnext.
  - destruct (follow_links_cases fuel (extend_events [] page) url
                (next_link_of page) c1 Hnext)
      as [c' [xs [Hx [Hd [_ Hcases]]]]].
    exists c', ((events_url user_id, PageReturns page) :: xs).
    split; [rewrite Hx; unfold c1; cbn [cl_exchanges]; now rewrite <- app_assoc|].
    split; [rewrite Hd; reflexivity|].
    destruct Hcases as [[Hrun [Hch Hlen]]|[[e [ys [u [Hrun [Hxs [Hlen Hch]]]]]]
                                          |[Hrun [Hlen Hch]]]].
    + left. split; [exact Hrun|]. split; [|simpl; lia].
      cbn [chain_to]. split; [reflexivity|]. exists page.
      split; [reflexivity|]. destruct xs as [|x xs']; [destruct Hch|]. eauto.
    + right. left.
      exists e, ((events_url user_id, PageReturns page) :: ys), u.
      split; [exact Hrun|]. split; [now rewrite Hxs|]. right.
      cbn [chain_to]. split; [reflexivity|]. exists page.
      split; [reflexivity|].
      destruct Hch as [[-> ->]|Hch]; [exact Hnext|].
      destruct ys as [|y ys']; [destruct Hch|]. eauto.
    + right. right. split; [exact Hrun|]. split; [simpl; lia|].
      destruct Hch as [->|[u Hch]].
      * destruct xs; [|discriminate]. exists url.
        cbn [chain_to]. split; [reflexivity|]. eauto.
      * exists u. cbn [chain_to]. split; [reflexivity|]. exists page.
        split; [reflexivity|]. destruct xs as [|x xs']; [destruct Hch|]. eauto.
  - exists c1, [(events_url user_id, PageReturns page)].
    unfold c1. cbn [cl_exchanges cl_deletions].
    do 2 (split; [reflexivity|]). left.
    rewrite follow_links_done by exact Hnext.
    split; [|split; [|simpl; lia]].
    + cbn [exchanged_events flat_map snd]. now rewrite app_nil_r.
    + cbn [chain_to]. split; [reflexivity|]. exists page. auto.
Qed.

(** Fetching touches neither the counters nor the list of deletions. *)
Lemma follow_links_frame (fuel : nat) : forall acc next_link c,
  cl_deletions (fst (follow_links send_async fuel acc next_link c))
  = cl_deletions c
  /\ cl_tally (fst (follow_links send_async fuel acc next_link c)) = cl_tally c.
Proof.
  induction fuel as [|fuel IH]; intros acc next_link c; cbn [follow_links];
    destruct (live_link next_link) as [url|]; try (split; reflexivity).
  unfold ebind, do_send.
  destruct (send_async (cl_world c) url) as [w [page|e]];
    [|split; reflexivity].
  match goal with
  | |- context [follow_links send_async fuel ?a ?l ?c1] =>
      destruct (IH a l c1) as [Hd Ht]
  end.
  rewrite Hd, Ht. split; reflexivity.
Qed.

Lemma fetch_frame (fuel : nat) (user_id : string) (c : cleaner World) :
  cl_deletions (fst (_fetch_events_for_user send_async fuel user_id c))
  = cl_deletions c
  /\ cl_tally (fst (_fetch_events_for_user send_async fuel user_id c))
     = cl_tally c.
Proof.
  unfold _fetch_events_for_user, ebind, do_send.
  destruct (send_async (cl_world c) (events_url user_id)) as [w [page|e]];
    [|split; reflexivity].
  match goal with
  | |- context [follow_links send_async fuel ?a ?l ?c1] =>
      destruct (follow_links_frame fuel a l c1) as [Hd Ht]
  end.
  rewrite Hd, Ht. split; reflexivity.
Qed.

(** The deletion loop never raises; it requests one deletion per event and
    counts each outcome. *)
Lemma delete_matching_accounts (user_id : string) (events : list CalEvent) :
  forall c,
  exists c',
    delete_matching delete_event user_id events c = (c', Ok tt)
    /\ cl_deletions c' = (cl_deletions c ++ map (pair user_id) events)%list
    /\ total_scanned (cl_tally c') = total_scanned (cl_tally c)
    /\ total_deleted (cl_tally c) <= total_deleted (cl_tally c')
    /\ total_failed (cl_tally c) <= total_failed (cl_tally c')
    /\ (total_deleted (cl_tally c') - total_deleted (cl_tally c))
       + (total_failed (cl_tally c') - total_failed (cl_tally c))
       = len events.
Proof.
  induction events as [|event rest IH]; intros c.
  - exists c. cbn. unfold len. simpl. rewrite app_nil_r. repeat split; lia.
  - cbn [delete_matching]. unfold ebind at 1, etry, do_delete.
    unfold ebind at 1.
    destruct (delete_event (cl_world c) user_id (ce_id event)) as [w [e|]];
      unfold update_tally; cbn [cl_world cl_tally cl_exchanges cl_deletions];
      match goal with
      | |- context [delete_matching delete_event user_id rest ?c1] =>
          destruct (IH c1) as [c' [Hrun [Hd [Hs [Hdel [Hfail Hsum]]]]]]
      end;
      exists c'; (split; [exact Hrun|]);
      cbn [cl_tally cl_deletions total_deleted total_failed total_scanned] in *;
      (split; [rewrite Hd; now rewrite <- app_assoc|]);
      unfold len in *; cbn [List.length]; repeat split; lia.
Qed.

(** One user: the step never raises, and whatever it deletes matches. *)
Lemma cleanup_user_accounts (fuel : nat) (keyword user_id : string)
  (c : cleaner World) :
  exists c' events,
    (cleanup_user send_async delete_event fuel keyword user_id c = (c', Ok tt)
     \/ cleanup_user send_async delete_event fuel keyword user_id c
        = (c', OutOfFuel))
    /\ cl_deletions c' = (cl_deletions c ++ map (pair user_id) events)%list
    /\ Forall (fun e => matches (lower keyword) e = true) events
    /\ total_deleted (cl_tally c) <= total_deleted (cl_tally c')
    /\ total_failed (cl_tally c) <= total_failed (cl_tally c')
    /\ (total_deleted (cl_tally c') - total_deleted (cl_tally c))
       + (total_failed (cl_tally c') - total_failed (cl_tally c))
       = len events
    /\ len events
       <= total_scanned (cl_tally c') - total_scanned (cl_tally c).
Proof.
  remember (cleanup_user send_async delete_event fuel keyword user_id c)
    as r eqn:Hr.
  unfold cleanup_user, etry in Hr. unfold ebind at 1 in Hr.
  destruct (fetch_frame fuel user_id c) as [Hfd Hft].
  destruct (_fetch_events_for_user send_async fuel user_id c)
    as [c1 [all_events|e|]]; cbn [fst] in Hfd, Hft.
  - destruct all_events as [|ev0 more].
    + exists c1, []. unfold eret in Hr. split; [now left|].
      rewrite Hfd, Hft, app_nil_r. unfold len. simpl.
      repeat split; try lia. constructor.
    + set (all_events := ev0 :: more) in *.
      unfold ebind, update_tally in Hr.
      match type of Hr with
      | context [delete_matching delete_event user_id ?evs ?c2] =>
          destruct (delete_matching_accounts user_id evs c2)
            as [c' [Hrun [Hd [Hs [Hdel [Hfail Hsum]]]]]]
      end.
      exists c', (filter (matches (lower keyword)) all_events).
      rewrite Hrun in Hr. split; [now left|].
      cbn [cl_tally cl_deletions total_deleted total_failed total_scanned] in *.
      split; [rewrite Hd, Hfd; reflexivity|].
      split; [apply Forall_forall; intros x Hx; now apply filter_In in Hx|].
      rewrite Hft in *.
      assert (Hle : len (filter (matches (lower keyword)) all_events)
                    <= len all_events)
        by (unfold len; apply inj_le, filter_length_le).
      repeat split; lia.
  - exists c1, []. unfold eret in Hr. split; [now left|].
    rewrite Hfd, Hft, app_nil_r. unfold len. simpl.
    repeat split; try lia. constructor.
  - exists c1, []. split; [now right|].
    rewrite Hfd, Hft, app_nil_r. unfold len. simpl.
    repeat split; try lia. constructor.
Qed.

(** All users: what is deleted belongs to a listed user and matches, and the
    counters account for every deletion requested. *)
Lemma cleanup_users_accounts (fuel : nat) (keyword : string)
  (user_list : list string) :
  forall c,
  exists c' dels,
    (cleanup_users send_async delete_event fuel keyword user_list c = (c', Ok tt)
     \/ cleanup_users send_async delete_event fuel keyword user_list c
        = (c', OutOfFuel))
    /\ cl_deletions c' = (cl_deletions c ++ dels)%list
    /\ Forall (fun d => In (fst d) user_list
                        /\ matches (lower keyword) (snd d) = true) dels
    /\ total_deleted (cl_tally c) <= total_deleted (cl_tally c')
    /\ total_failed (cl_tally c) <= total_failed (cl_tally c')
    /\ (total_deleted (cl_tally c') - total_deleted (cl_tally c))
       + (total_failed (cl_tally c') - total_failed (cl_tally c))
       = len dels
    /\ len dels <= total_scanned (cl_tally c') - total_scanned (cl_tally c).
Proof.
  induction user_list as [|user_id rest IH]; intros c.
  - exists c, []. cbn. unfold len. simpl. rewrite app_nil_r.
    split; [now left|]. repeat split; try lia. constructor.
  - cbn [cleanup_users]. unfold ebind.
    destruct (cleanup_user_accounts fuel keyword user_id c)
      as [c1 [events [Hrun [Hd [Hm [Hdel [Hfail [Hsum Hscan]]]]]]]].
    assert (Hhere : Forall (fun d => In (fst d) (user_id :: rest)
                                    /\ matches (lower keyword) (snd d) = true)
                           (map (pair user_id) events)).
    { apply Forall_forall. intros d Hin.
      apply in_map_iff in Hin as [ev [<- Hev]]. cbn [fst snd].
      split; [now left|]. rewrite Forall_forall in Hm. now apply Hm. }
    destruct Hrun as [Hrun|Hrun]; rewrite Hrun.
    + destruct (IH c1) as [c2 [dels [Hrun2 [Hd2 [Hm2 [Hdel2 [Hfail2 [Hsum2 Hscan2]]]]]]]].
      exists c2, (map (pair user_id) events ++ dels)%list.
      split; [exact Hrun2|].
      split; [rewrite Hd2, Hd; now rewrite app_assoc|].
      split.
      { apply Forall_app. split; [exact Hhere|].
        apply Forall_forall. intros d Hin. rewrite Forall_forall in Hm2.
        destruct (Hm2 d Hin). split; [now right|assumption]. }
      unfold len in *. rewrite length_app, length_map.
      repeat split; lia.
    + exists c1, (map (pair user_id) events).
      split; [now right|]. split; [exact Hd|]. split; [exact Hhere|].
      unfold len in *. rewrite length_map. repeat split; lia.
Qed.

(** X9. [cleanup_test_events] never raises: every failed fetch or deletion
    is absorbed.  Unless a pagination is still running, it returns its three
    counters, where [deleted + failed] is the number of deletions requested
    and never more than [scanned]. *)
Theorem cleanup_test_events_accounts (fuel : nat) (attendees : list string)
  (keyword : string) (c : cleaner World) :
  exists c' dels,
    cl_deletions c' = (cl_deletions c ++ dels)%list
    /\ (cleanup_test_events send_async delete_event fuel attendees keyword c
        = (c', OutOfFuel)
        \/ exists deleted failed scanned,
             cleanup_test_events send_async delete_event fuel attendees keyword c
             = (c', Ok (VDict [("deleted", VInt deleted);
                               ("failed", VInt failed);
                               ("scanned", VInt scanned)]))
             /\ 0 <= deleted /\ 0 <= failed
             /\ deleted + failed = len dels
             /\ deleted + failed <= scanned).
Proof.
  remember (cleanup_test_events send_async delete_event fuel attendees keyword c)
    as r eqn:Hr.
  unfold cleanup_test_events, ebind, update_tally in Hr.
  destruct (cleanup_users_accounts fuel keyword attendees
              (mkCleaner (cl_world c) (mkCleanup 0 0 0) (cl_exchanges c)
                         (cl_deletions c)))
    as [c' [dels [Hrun [Hd [_ [Hdel [Hfail [Hsum Hscan]]]]]]]].
  exists c', dels. split; [exact Hd|].
  cbn [cl_tally total_deleted total_failed total_scanned] in *.
  destruct Hrun as [Hrun|Hrun]; rewrite Hrun in Hr; [right|now left].
  do 3 eexists. split; [exact Hr|]. repeat split; lia.
Qed.

(** X10. [cleanup_test_events] only ever requests the deletion of events
    that match: the user is one of the listed attendees and the event has a
    non-empty subject that, in lower case, contains the keyword in lower case.
    Events without subject are never deleted. *)
Theorem cleanup_test_events_only_matching (fuel : nat) (attendees : list string)
  (keyword : string) (c : cleaner World) :
  exists dels,
    cl_deletions
      (fst (cleanup_test_events send_async delete_event fuel attendees keyword c))
    = (cl_deletions c ++ dels)%list
    /\ forall user_id event,
         In (user_id, event) dels ->
         In user_id attendees
         /\ exists subject pre post,
              ce_subject event = Some subject
              /\ subject <> EmptyString
              /\ lower subject = (pre ++ lower keyword ++ post)%string.
Proof.
  remember (cleanup_test_events send_async delete_event fuel attendees keyword c)
    as r eqn:Hr.
  unfold cleanup_test_events, ebind, update_tally in Hr.
  destruct (cleanup_users_accounts fuel keyword attendees
              (mkCleaner (cl_world c) (mkCleanup 0 0 0) (cl_exchanges c)
                         (cl_deletions c)))
    as [c' [dels [Hrun [Hd [Hm _]]]]].
  exists dels. split.
  - destruct Hrun as [Hrun|Hrun]; rewrite Hrun in Hr; subst r; exact Hd.
  - intros user_id event Hin. rewrite Forall_forall in Hm.
    destruct (Hm _ Hin) as [Hu Hmatch]. cbn [fst snd] in *.
    split; [exact Hu|].
    unfold matches in Hmatch.
    destruct (ce_subject event) as [subject|]; [|discriminate].
    apply andb_prop in Hmatch as [Hne Hc].
    apply contains_spec in Hc as [pre [post Hc]].
    exists subject, pre, post. split; [reflexivity|].
    split; [now apply nonempty_true|exact Hc].
Qed.

End CleanupFacts.


(** * Counting candidates, the calendar probe and the drivers *)

Lemma suggestion_entries_length (items : list MeetingTimeSuggestion)
  (vs : list pyval) :
  suggestion_entries items = Ok vs -> List.length vs = List.length items.
Proof.
  revert vs. induction items as [|item rest IH]; intros vs H.
  - inversion H. reflexivity.
  - cbn [suggestion_entries] in H.
    destruct (suggestion_entry item) as [v|e|]; cbn [Py.bind] in H;
      try discriminate.
    destruct (suggestion_entries rest) as [vs'|e|]; cbn [Py.bind] in H;
      try discriminate.
    inversion H; subst vs. simpl. f_equal. now apply IH.
Qed.

Lemma count_candidates_success (r : Response) (v : pyval) :
  success_result r = Ok v ->
  count_candidates v
  = Ok (len (match meeting_time_suggestions r with Some l => l | None => [] end)).
Proof.
  unfold success_result.
  destruct (suggestion_entries _) as [vs|e|] eqn:E; cbn [Py.bind];
    try discriminate.
  intros H. inversion H; subst v. cbn. unfold len.
  now rewrite (suggestion_entries_length _ _ E).
Qed.

(** A [try] body that completes has got a response and built its result. *)
Lemma call_body_success {World : Type}
  (post : World -> RequestBody -> World * reply)
  (save_raw : World -> Response -> World * option exn)
  (attendees : list string) (start end_ : string)
  (duration max_candidates : Z) (save_debug : bool) (s s' : session World)
  (v : pyval) :
  call_body post save_raw attendees start end_ duration max_candidates
            save_debug s = (s', Ok v) ->
  exists w r,
    post (world s) (build_request attendees start end_ duration max_candidates)
    = (w, Returns (Some r))
    /\ success_result r = Ok v.
Proof.
  unfold call_body, rbind, do_post, do_save_raw, ret, lift.
  destruct (post (world s) _) as [w [[r|]|e]]; try discriminate.
  - destruct save_debug.
    + cbn [world issued]. destruct (save_raw w r) as [w' [e|]];
        try discriminate.
      destruct (success_result r) eqn:E; try discriminate.
      intros H. inversion H; subst. eauto.
    + destruct (success_result r) eqn:E; try discriminate.
      intros H. inversion H; subst. eauto.
  - destruct save_debug; discriminate.
Qed.

(** X11. [count_candidates] applied to what [call_findmeetingtimes]
    returned: after a successful call it gives the number of suggestions in
    the response; after a failed call, where ["data"] is the error text, it
    raises [TypeError]. *)
Theorem count_candidates_of_call {World : Type}
  (post : World -> RequestBody -> World * reply)
  (save_raw : World -> Response -> World * option exn)
  (attendees : list string) (start end_ : string)
  (duration max_candidates : Z) (save_debug : bool) (s : session World) :
  exists v,
    snd (call_findmeetingtimes post save_raw attendees start end_ duration
                               max_candidates save_debug s) = Ok v
    /\ ((getitem v "status" = Ok (VInt 200)
         /\ exists w r,
              post (world s)
                   (build_request attendees start end_ duration max_candidates)
              = (w, Returns (Some r))
              /\ count_candidates v
                 = Ok (len (match meeting_time_suggestions r with
                            | Some l => l
                            | None => []
                            end)))
        \/ (getitem v "status" = Ok (VInt 500)
            /\ exists e, count_candidates v = Raise e
                         /\ exn_class e = "TypeError")).
Proof.
  destruct (call_body_cases post save_raw attendees start end_ duration
              max_candidates save_debug s) as [s' [_ [[data H]|[e H]]]];
    unfold call_findmeetingtimes, try_except; rewrite H; cbn [snd].
  - eexists. split; [reflexivity|]. left. split; [reflexivity|].
    destruct (call_body_success post save_raw _ _ _ _ _ _ _ _ _ H)
      as [w [r [Hpost Hres]]].
    exists w, r. split; [exact Hpost|].
    now apply count_candidates_success.
  - eexists. split; [reflexivity|]. right. split; [reflexivity|].
    eexists. split; reflexivity.
Qed.

(** X12. [test_calendar_access] never raises and reports exactly one of
    [ok] and [fail]: [ok] when the user request returned a user and the
    calendar request went through, [fail] otherwise; the calendar is not
    requested when the user request failed. *)
Theorem test_calendar_access_outcomes {World : Type}
  (get_me : World -> World * user_reply)
  (get_calendar : World -> World * option exn)
  (attendees : list string) (p : probe World) :
  exists p' v,
    test_calendar_access get_me get_calendar attendees p = (p', Ok v)
    /\ ((v = VDict [("ok", VInt 1); ("fail", VInt 0)]
         /\ pr_requests p' = (pr_requests p ++ ["me"; "me/calendar"])%list
         /\ exists w user, get_me (pr_world p) = (w, UserReturns (Some user))
                           /\ snd (get_calendar w) = None)
        \/ (v = VDict [("ok", VInt 0); ("fail", VInt 1)]
            /\ ((pr_requests p' = (pr_requests p ++ ["me"])%list
                 /\ exists w, get_me (pr_world p) = (w, UserReturns None)
                              \/ exists e, get_me (pr_world p) = (w, UserThrows e))
                \/ (pr_requests p' = (pr_requests p ++ ["me"; "me/calendar"])%list
                    /\ exists w user e,
                         get_me (pr_world p) = (w, UserReturns (Some user))
                         /\ snd (get_calendar w) = Some e)))).
Proof.
  unfold test_calendar_access, etry, ebind, do_get_me, do_get_calendar, elift,
    eret.
  destruct (get_me (pr_world p)) as [w [[user|]|e]].
  - cbn [pr_world pr_requests].
    destruct (get_calendar w) as [w' [e|]] eqn:Hcal.
    + do 2 eexists. split; [reflexivity|]. right. split; [reflexivity|].
      right. cbn [pr_requests]. rewrite <- app_assoc.
      split; [reflexivity|]. exists w, user, e. now rewrite Hcal.
    + do 2 eexists. split; [reflexivity|]. left. split; [reflexivity|].
      cbn [pr_requests]. rewrite <- app_assoc.
      split; [reflexivity|]. exists w, user. now rewrite Hcal.
  - do 2 eexists. split; [reflexivity|]. right. split; [reflexivity|].
    left. split; [reflexivity|]. exists w. now left.
  - do 2 eexists. split; [reflexivity|]. right. split; [reflexivity|].
    left. split; [reflexivity|]. exists w. right. now exists e.
Qed.

(** A negative chunk size moves [current] back until the subtraction passes
    [datetime.min]. *)
Lemma chunk_dates_underflow (fuel : nat) (start end_ : datetime) (days : Z) :
  0 <= start -> start < end_ -> days < 0 ->
  (Z.to_nat (start / (- days * US_PER_DAY)) < fuel)%nat ->
  exists e,
    exn_class e = "OverflowError"
    /\ chunk_dates fuel start end_ days = Raise e.
Proof.
  intros Hstart Hlt Hdays Hfuel.
  assert (Hday : 0 < US_PER_DAY) by reflexivity.
  set (step := - days * US_PER_DAY) in *.
  assert (Hstep : 0 < step) by (unfold step; nia).
  unfold chunk_dates. generalize (@nil (datetime * datetime)).
  assert (Hle : start <= start) by lia.
  revert Hfuel Hstart Hle. generalize start at 1 2 3 5 as current.
  induction fuel as [|fuel IH]; intros current Hfuel Hcur Hle acc; [lia|].
  cbn [chunk_loop].
  destruct (Z.ltb_spec current end_) as [_|?]; [|lia].
  unfold timedelta_days.
  destruct (Z.leb_spec (Z.abs days) MAX_DELTA_DAYS) as [_|_]; cbn [Py.bind];
    [|eexists; split; [|reflexivity]; reflexivity].
  unfold DateTime.add, in_range.
  replace (current + days * US_PER_DAY) with (current - step)
    by (unfold step; lia).
  destruct (Z.leb_spec 0 (current - step)) as [Hnext|_];
    [|eexists; split; [|reflexivity]; reflexivity].
  destruct (Z.leb_spec (current - step) datetime_max) as [_|_];
    [|eexists; split; [|reflexivity]; reflexivity].
  cbn [andb Py.bind]. unfold Py.min.
  destruct (Z.ltb_spec end_ (current - step)) as [?|_]; [lia|].
  apply IH; try lia.
  assert (Hdiv : (current - step) / step = current / step - 1).
  { replace (current - step) with (current + (-1) * step) by lia.
    rewrite Z.div_add by lia. lia. }
  rewrite Hdiv.
  pose proof (Z.div_pos current step Hcur Hstep).
  assert (1 <= current / step).
  { apply Z.div_le_lower_bound; lia. }
  lia.
Qed.

(** X13. A chunk size below one never yields chunks for [start < end]:
    with [days = 0] the loop does not advance and never ends; with a
    negative [days] each round moves [current] further back and
    [chunk_dates] raises [OverflowError] when the subtraction passes
    [datetime.min] (or at once, when [days] is too large for a
    [timedelta]). *)
Theorem chunk_dates_nonpositive_days (start end_ : datetime) (days : Z) :
  0 <= start -> start < end_ -> end_ <= datetime_max -> days <= 0 ->
  (days = 0 -> forall fuel, chunk_dates fuel start end_ days = OutOfFuel)
  /\ (days < 0 ->
      forall fuel,
        (Z.to_nat (start / (- days * US_PER_DAY)) < fuel)%nat ->
        exists e,
          exn_class e = "OverflowError"
          /\ chunk_dates fuel start end_ days = Raise e).
Proof.
  intros Hstart Hlt Hend Hdays. split.
  - intros -> fuel. now apply chunk_dates_zero_days_spins.
  - intros Hneg fuel Hfuel. now apply chunk_dates_underflow.
Qed.

Section DriverFacts.

Context {World : Type}.
Variable post : World -> RequestBody -> World * reply.
Variable save_raw : World -> Response -> World * option exn.

(** X14. A batch size below one makes [run_mitigation] post nothing: with
    [batch_size = 0] the [ValueError] of [range] comes out of it; with a
    negative [batch_size] there is no partition, and once the chunker has
    returned the report is the empty one, with zero calls and a success rate
    of 0. *)
Theorem run_mitigation_nonpositive_batch (fuel : nat) (attendees : list string)
  (start end_ : datetime) (batch_size days_per_chunk duration max_candidates : Z)
  (s : session World) :
  batch_size <= 0 ->
  (batch_size = 0 ->
   run_mitigation post save_raw fuel attendees start end_ batch_size
                  days_per_chunk duration max_candidates s
   = (s, Raise (ValueError "range() arg 3 must not be zero")))
  /\ (batch_size < 0 ->
      forall chunks,
        chunk_dates fuel start end_ days_per_chunk = Ok chunks ->
        run_mitigation post save_raw fuel attendees start end_ batch_size
                       days_per_chunk duration max_candidates s
        = (s, Ok (VDict [("total_calls", VInt 0); ("successful", VInt 0);
                         ("failed", VInt 0); ("success_rate", VInt 0);
                         ("results", VList [])]))).
Proof.
  intros Hb. split.
  - intros ->. reflexivity.
  - intros Hneg chunks Hc.
    assert (Hnone : batch_attendees attendees batch_size = Ok []).
    { unfold batch_attendees, range, range_len.
      destruct (Z.eqb_spec batch_size 0) as [?|_]; [lia|].
      destruct (Z.ltb_spec 0 batch_size) as [?|_]; [lia|].
      destruct (Z.ltb_spec (len attendees) 0) as [Hl|_];
        [unfold len in Hl; lia|reflexivity]. }
    rewrite (run_mitigation_serve post save_raw fuel attendees start end_
               batch_size days_per_chunk duration max_candidates [] chunks s
               Hnone Hc).
    reflexivity.
Qed.

(** X15. With a usable list of attendees, [test_mitigation_effectiveness]
    makes [ceil(n / 5) * 10] calls for [n] attendees, whatever the remote
    service answers, and returns the report of [run_mitigation]. *)
Theorem test_mitigation_effectiveness_calls
  (environ : string -> option string) (attendees : list string) (fuel : nat)
  (s : session World) :
  load_test_attendees environ = Ok attendees ->
  (10 < fuel)%nat ->
  exists s' report,
    test_mitigation_effectiveness post save_raw environ fuel s
    = (s', Ok report)
    /\ getitem report "total_calls"
       = Ok (VInt ((len attendees + 4) / 5 * 10))
    /\ len (issued s') = len (issued s) + (len attendees + 4) / 5 * 10.
Proof.
  intros Hload Hfuel.
  assert (Hb : batch_attendees attendees 5
               = Ok (map (fun k => firstn 5 (skipn (k * 5) attendees))
                         (seq 0 (Z.to_nat (range_len 0 (len attendees) 5)))))
    by (apply batch_attendees_windows; lia).
  assert (Hc : exists chunks, chunk_dates fuel jan29 feb28 3 = Ok chunks
                              /\ len chunks = 10).
  { exists (map (fun j => (boundary jan29 feb28 3 j, boundary jan29 feb28 3 (S j)))
                (seq 0 10)).
    split; [|reflexivity].
    unfold chunk_dates.
    change jan29 with (boundary jan29 feb28 3 0) at 1.
    rewrite (chunk_loop_run jan29 feb28 3) with (k := 10%nat);
      try reflexivity; try lia; vm_compute; congruence. }
  destruct Hc as [chunks [Hc Hten]].
  assert (Hcount : Z.of_nat (Z.to_nat (range_len 0 (len attendees) 5))
                   = (len attendees + 4) / 5).
  { unfold range_len. cbn [Z.ltb Z.compare].
    assert (Hn : 0 <= len attendees) by (unfold len; lia).
    destruct (Z.ltb_spec 0 (len attendees)) as [Hpos|Hz].
    - replace (len attendees - 1 - 0) with (len attendees + 4 + (-1) * 5) by lia.
      rewrite Z.div_add by lia.
      pose proof (Z.div_pos (len attendees + 4) 5 ltac:(lia) ltac:(lia)).
      assert (1 <= (len attendees + 4) / 5)
        by (apply Z.div_le_lower_bound; lia).
      lia.
    - replace (len attendees) with 0 by lia. reflexivity. }
  unfold test_mitigation_effectiveness, rbind, lift. rewrite Hload.
  change (of_date 2026 1 29) with (Ok jan29).
  change (of_date 2026 2 28) with (Ok feb28).
  cbn iota beta.
  rewrite (run_mitigation_serve post save_raw fuel attendees jan29 feb28 5 3
             60 50 _ chunks s Hb Hc).
  set (units := call_units _ chunks).
  assert (Hunits : len units = (len attendees + 4) / 5 * 10).
  { unfold units. rewrite call_units_length, Hten. f_equal.
    unfold len at 1. rewrite length_map, length_seq. exact Hcount. }
  cbn [getitem report_of assoc String.eqb Ascii.eqb Bool.eqb].
  do 2 eexists. split; [reflexivity|]. split.
  - cbn. unfold len at 1. rewrite serve_length. fold (len units).
    now rewrite Hunits.
  - rewrite serve_issued. unfold len at 1. rewrite length_app, length_map.
    fold (len units). unfold len at 1 2. unfold len in Hunits. lia.
Qed.

(** X16. With a usable list of attendees, [reproduce_bad_gateway] posts
    exactly one request: all attendees, 29 January to 30 December 2026, ten
    minutes, 1600 candidates.  The call's own failure is absorbed into a
    status-500 result, but a failure to save [api_result.json] is not: it
    comes out of the function. *)
Theorem reproduce_bad_gateway_single_call
  (save_result : World -> pyval -> World * option exn)
  (environ : string -> option string) (attendees : list string)
  (s : session World) :
  load_test_attendees environ = Ok attendees ->
  exists s1 v,
    call_findmeetingtimes post save_raw attendees "2026-01-29T00:00:00"
                          "2026-12-30T00:00:00" 10 1600 true s = (s1, Ok v)
    /\ issued s1
       = (issued s ++ [build_request attendees "2026-01-29T00:00:00"
                                     "2026-12-30T00:00:00" 10 1600])%list
    /\ reproduce_bad_gateway post save_raw save_result environ s
       = (mkSession (fst (save_result (world s1) v)) (issued s1),
          match snd (save_result (world s1) v) with
          | Some e => Raise e
          | None => Ok v
          end).
Proof.
  intros Hload.
  destruct (call_body_cases post save_raw attendees "2026-01-29T00:00:00"
              "2026-12-30T00:00:00" 10 1600 true s) as [s1 [Hi Hcases]].
  assert (Hcall : exists v st,
             call_findmeetingtimes post save_raw attendees "2026-01-29T00:00:00"
               "2026-12-30T00:00:00" 10 1600 true s = (s1, Ok v)
             /\ getitem v "status" = Ok (VInt st)).
  { unfold call_findmeetingtimes, try_except.
    destruct Hcases as [[data H]|[e H]]; rewrite H; do 2 eexists;
      split; reflexivity. }
  destruct Hcall as [v [st [Hcall Hst]]].
  exists s1, v. split; [exact Hcall|]. split; [exact Hi|].
  unfold reproduce_bad_gateway, rbind, lift. rewrite Hload.
  change (of_date 2026 1 29) with (Ok jan29).
  change (of_date 2026 12 30) with (Ok 63934185600000000).
  cbn iota beta.
  change (isoformat jan29) with "2026-01-29T00:00:00".
  change (isoformat 63934185600000000) with "2026-12-30T00:00:00".
  rewrite Hcall. unfold do_save_result.
  destruct (save_result (world s1) v) as [w [e|]]; cbn [fst snd];
    [reflexivity|].
  rewrite Hst. reflexivity.
Qed.

End DriverFacts.

(** X17. For a positive batch size [B], [batch_attendees] makes
    [ceil(n / B)] partitions of [n] attendees. *)
Theorem batch_attendees_count (attendees : list string) (B : Z) :
  0 < B ->
  exists parts,
    batch_attendees attendees B = Ok parts
    /\ len parts = (len attendees + B - 1) / B.
Proof.
  intros HB. eexists. split; [apply batch_attendees_windows; exact HB|].
  unfold len at 1. rewrite length_map, length_seq.
  assert (Hn : 0 <= len attendees) by (unfold len; lia).
  unfold range_len.
  destruct (Z.ltb_spec 0 B) as [_|?]; [|lia].
  destruct (Z.ltb_spec 0 (len attendees)) as [Hpos|Hz].
  - replace (len attendees - 1 - 0) with (len attendees + B - 1 + (-1) * B)
      by lia.
    rewrite Z.div_add by lia.
    assert (1 <= (len attendees + B - 1) / B)
      by (apply Z.div_le_lower_bound; lia).
    lia.
  - replace (len attendees) with 0 by lia.
    rewrite Z.div_small by lia. reflexivity.
Qed.


(** * Worked examples *)

Example of_date_scenario :
  of_date 2026 1 29 = Ok jan29 /\ of_date 2026 2 28 = Ok feb28
  /\ of_date 2026 2 2 = Ok feb02.
Proof. repeat split. Qed.

Example isoformat_scenario :
  isoformat jan29 = "2026-01-29T00:00:00"
  /\ isoformat (feb28 + 1500000) = "2026-02-28T00:00:01.500000"
  /\ isoformat datetime_max = "9999-12-31T23:59:59.999999".
Proof. repeat split. Qed.

Example batch_attendees_sample :
  batch_attendees five_attendees 2 = Ok sample_batches.
Proof. reflexivity. Qed.

(** One day cut into three-day chunks is a single chunk, the interval. *)
Example chunk_dates_one_day :
  chunk_dates 2 jan29 (jan29 + US_PER_DAY) 3 = Ok [(jan29, jan29 + US_PER_DAY)].
Proof. reflexivity. Qed.

(** A 502 from the remote service is reported with status 500. *)
Example bad_gateway_reported_as_500 :
  exn_status bad_gateway = Some 502
  /\ snd (call_findmeetingtimes down_post quiet_save_raw five_attendees
            (isoformat jan29) (isoformat feb02) 60 50 false fresh)
     = Ok (VDict [("status", VInt 500); ("data", VStr "Bad Gateway")]).
Proof. split; reflexivity. Qed.

(** Half of the six calls fail; all six are made and reported. *)
Example flaky_run_report :
  exists s' rs,
    run_mitigation flaky_post quiet_save_raw 3 five_attendees jan29 feb02
                   2 3 60 50 fresh
    = (s', Ok (VDict [("total_calls", VInt 6); ("successful", VInt 3);
                      ("failed", VInt 3); ("success_rate", VFloat (3 # 6));
                      ("results", VList rs)]))
    /\ world s' = 6%nat /\ List.length (issued s') = 6%nat.
Proof. do 2 eexists. vm_compute. repeat split. Qed.

(** The 5 x 10 grid with every call failing: 50 calls, none successful. *)
Example all_calls_fail :
  exists s' rs,
    run_mitigation down_post quiet_save_raw 11 participants25 jan29 feb28
                   5 3 60 50 fresh
    = (s', Ok (VDict [("total_calls", VInt 50); ("successful", VInt 0);
                      ("failed", VInt 50); ("success_rate", VFloat (0 # 50));
                      ("results", VList rs)]))
    /\ List.length (issued s') = 50%nat.
Proof. do 2 eexists. vm_compute. split; reflexivity. Qed.

(** Without the application's credentials the entry point of
    create_events.py stops at the client, before any slot or post. *)
Example create_events_main_without_credentials :
  create_events_main picky_post_event strict_new_client padded_environ jan29
                     empty_mailbox
  = (empty_mailbox,
     Raise (ValueError "client_id should be the id of a Microsoft Entra application")).
Proof. reflexivity. Qed.

(** With them, two attendees get 1440 posts each. *)
Example create_events_main_with_credentials :
  snd (create_events_main picky_post_event strict_new_client app_environ jan29
                          empty_mailbox) = Ok tt
  /\ List.length (mb_posted (fst (create_events_main picky_post_event
                                    strict_new_client app_environ jan29
                                    empty_mailbox))) = 2880%nat.
Proof. vm_compute. split; reflexivity. Qed.

(** * The statements at concrete inputs *)

Lemma batch_attendees_partition_witness :
  0 < 2
  /\ exists parts,
       batch_attendees five_attendees 2 = Ok parts
       /\ List.concat parts = five_attendees
       /\ (forall i p, nth_error parts i = Some p ->
                       (S i < List.length parts)%nat -> len p = 2)
       /\ (forall p, nth_error parts (List.length parts - 1) = Some p ->
                     1 <= len p <= 2)
       /\ (five_attendees = [] -> parts = []).
Proof.
  split; [lia|]. apply (batch_attendees_partition five_attendees 2). lia.
Defined.

Lemma batch_attendees_nonpositive_witness :
  -1 <= 0
  /\ (-1 = 0 ->
      batch_attendees five_attendees (-1)
      = Raise (ValueError "range() arg 3 must not be zero"))
  /\ (-1 < 0 -> batch_attendees five_attendees (-1) = Ok []).
Proof.
  split; [lia|]. apply (batch_attendees_nonpositive five_attendees (-1)). lia.
Defined.

Lemma chunk_dates_chunks_witness :
  (0 <= jan29 /\ jan29 < feb28 /\ feb28 <= datetime_max /\ 0 < 3
   /\ jan29 + chunk_count jan29 feb28 3 * (3 * US_PER_DAY) <= datetime_max)
  /\ exists chunks,
       (forall fuel, (Z.to_nat (chunk_count jan29 feb28 3) < fuel)%nat ->
                     chunk_dates fuel jan29 feb28 3 = Ok chunks)
       /\ len chunks = chunk_count jan29 feb28 3
       /\ (exists e0 rest, chunks = (jan29, e0) :: rest)
       /\ (forall i s e, nth_error chunks i = Some (s, e) ->
                         e = Z.min (s + 3 * US_PER_DAY) feb28
                         /\ s < e /\ e <= feb28)
       /\ (forall i c c', nth_error chunks i = Some c ->
                          nth_error chunks (S i) = Some c' -> fst c' = snd c)
       /\ (exists s, nth_error chunks (List.length chunks - 1) = Some (s, feb28)).
Proof.
  split; [vm_compute; repeat split; discriminate|].
  apply (chunk_dates_chunks jan29 feb28 3); vm_compute;
    reflexivity || discriminate.
Defined.

Lemma chunk_dates_empty_interval_witness :
  feb28 >= jan29 /\ chunk_dates 1 feb28 jan29 3 = Ok [].
Proof.
  split; [vm_compute; discriminate|].
  apply (chunk_dates_empty_interval 0 feb28 jan29 3). vm_compute. discriminate.
Defined.

Lemma run_mitigation_isolates_failures_witness :
  (batch_attendees five_attendees 2 = Ok sample_batches
   /\ chunk_dates 3 jan29 feb02 3 = Ok sample_chunks)
  /\ exists s' report rs,
       run_mitigation flaky_post quiet_save_raw 3 five_attendees jan29 feb02
                      2 3 60 50 fresh = (s', Ok report)
       /\ issued s'
          = (issued fresh ++ map (unit_request 60 50)
                                 (call_units sample_batches sample_chunks))%list
       /\ getitem report "results" = Ok (VList rs)
       /\ len rs = len (call_units sample_batches sample_chunks)
       /\ getitem report "total_calls" = Ok (VInt (len rs))
       /\ getitem report "successful" = Ok (VInt (count_ok rs))
       /\ getitem report "failed" = Ok (VInt (len rs - count_ok rs))
       /\ 0 <= count_ok rs <= len rs
       /\ getitem report "success_rate"
          = Ok (if len rs =? 0 then VInt 0
                else VFloat (count_ok rs # Z.to_pos (len rs))).
Proof.
  split; [split; vm_compute; reflexivity|].
  apply (run_mitigation_isolates_failures flaky_post quiet_save_raw 3
           five_attendees jan29 feb02 2 3 60 50 sample_batches sample_chunks
           fresh); vm_compute; reflexivity.
Defined.

Lemma run_mitigation_call_count_witness :
  (batch_attendees five_attendees 2 = Ok sample_batches
   /\ chunk_dates 3 jan29 feb02 3 = Ok sample_chunks)
  /\ (exists s' report,
        run_mitigation flaky_post quiet_save_raw 3 five_attendees jan29 feb02
                       2 3 60 50 fresh = (s', Ok report)
        /\ len (call_units sample_batches sample_chunks)
           = len sample_batches * len sample_chunks
        /\ len (issued s')
           = len (issued fresh) + len sample_batches * len sample_chunks
        /\ getitem report "total_calls"
           = Ok (VInt (len sample_batches * len sample_chunks)))
  /\ (forall participants s0,
         List.length participants = 25%nat ->
         exists s1 report,
           run_mitigation flaky_post quiet_save_raw 11 participants jan29 feb28
                          5 3 60 50 s0 = (s1, Ok report)
           /\ len (issued s1) = len (issued s0) + 50
           /\ getitem report "total_calls" = Ok (VInt 50)).
Proof.
  split; [split; vm_compute; reflexivity|].
  apply (run_mitigation_call_count flaky_post quiet_save_raw 3
           five_attendees jan29 feb02 2 3 60 50 sample_batches sample_chunks
           fresh); vm_compute; reflexivity.
Defined.

Lemma run_mitigation_order_witness :
  (batch_attendees five_attendees 2 = Ok sample_batches
   /\ chunk_dates 3 jan29 feb02 3 = Ok sample_chunks)
  /\ exists s' report,
       run_mitigation flaky_post quiet_save_raw 3 five_attendees jan29 feb02
                      2 3 60 50 fresh = (s', Ok report)
       /\ issued s'
          = (issued fresh
             ++ flat_map
                  (fun batch =>
                     map (fun chunk =>
                            build_request batch (isoformat (fst chunk))
                                          (isoformat (snd chunk)) 60 50)
                         sample_chunks)
                  sample_batches)%list
       /\ (forall i j batch chunk,
              nth_error sample_batches i = Some batch ->
              nth_error sample_chunks j = Some chunk ->
              nth_error (issued s')
                        (List.length (issued fresh)
                         + (i * List.length sample_chunks + j))
              = Some (build_request batch (isoformat (fst chunk))
                                    (isoformat (snd chunk)) 60 50))
       /\ (s', getitem report "results")
          = (fst (serve flaky_post quiet_save_raw 60 50
                    (call_units sample_batches sample_chunks) fresh),
             Ok (VList (snd (serve flaky_post quiet_save_raw 60 50
                               (call_units sample_batches sample_chunks)
                               fresh)))).
Proof.
  split; [split; vm_compute; reflexivity|].
  apply (run_mitigation_order flaky_post quiet_save_raw 3
           five_attendees jan29 feb02 2 3 60 50 sample_batches sample_chunks
           fresh); vm_compute; reflexivity.
Defined.

Lemma missing_attendees_abort_preflight_witness :
  (empty_environ "TEST_ATTENDEES" = None
   \/ (exists raw, empty_environ "TEST_ATTENDEES" = Some raw
                   /\ forall item, In item (split "," raw) -> strip item = ""))
  /\ load_test_attendees empty_environ = Raise missing_attendees
  /\ test_mitigation_effectiveness flaky_post quiet_save_raw empty_environ 11 fresh
     = (fresh, Raise missing_attendees)
  /\ reproduce_bad_gateway flaky_post quiet_save_raw quiet_save_result
                           empty_environ fresh
     = (fresh, Raise missing_attendees)
  /\ issued (fst (test_mitigation_effectiveness flaky_post quiet_save_raw
                    empty_environ 11 fresh))
     = issued fresh
  /\ issued (fst (reproduce_bad_gateway flaky_post quiet_save_raw
                    quiet_save_result empty_environ fresh))
     = issued fresh.
Proof.
  assert (H : empty_environ "TEST_ATTENDEES" = None
              \/ (exists raw, empty_environ "TEST_ATTENDEES" = Some raw
                              /\ forall item, In item (split "," raw) ->
                                              strip item = "")).
  { right. exists "". split; [reflexivity|].
    intros item [<-|[]]. reflexivity. }
  split; [exact H|].
  exact (missing_attendees_abort_preflight flaky_post quiet_save_raw
           quiet_save_result empty_environ 11 fresh H).
Defined.

Lemma load_test_attendees_clean_witness :
  load_test_attendees padded_environ = Ok two_attendees
  /\ two_attendees <> []
  /\ forall a, In a two_attendees ->
               a <> EmptyString /\ strip a = a
               /\ ~ In ","%char (list_ascii_of_string a).
Proof.
  split; [reflexivity|].
  apply (load_test_attendees_clean padded_environ two_attendees). reflexivity.
Defined.

Lemma load_test_attendees_join_witness :
  (padded_items <> []
   /\ (forall r, In r padded_items ->
                 ~ In ","%char (list_ascii_of_string r) /\ strip r <> EmptyString)
   /\ joined_environ padded_items "TEST_ATTENDEES"
      = Some (String.concat "," padded_items))
  /\ load_test_attendees (joined_environ padded_items) = Ok (map strip padded_items).
Proof.
  assert (H : forall r, In r padded_items ->
                        ~ In ","%char (list_ascii_of_string r)
                        /\ strip r <> EmptyString).
  { intros r [<-|[<-|[]]]; (split; [|discriminate]); simpl; intros H;
      repeat (destruct H as [H|H]; [discriminate H|]); exact H. }
  split; [split; [discriminate|split; [exact H|reflexivity]]|].
  apply (load_test_attendees_join padded_items (joined_environ padded_items));
    [discriminate|exact H|reflexivity].
Defined.

Lemma generate_time_slots_grid_witness :
  (0 <= jan29 + 5000000000
   /\ 0 <= replace_midnight (jan29 + 5000000000) + 30 * US_PER_MINUTE
   /\ replace_midnight (jan29 + 5000000000) + (Z.max 1 2 - 1) * US_PER_DAY
      + 23 * US_PER_HOUR + Z.max 0 (30 * US_PER_MINUTE) <= datetime_max)
  /\ exists slots,
       generate_time_slots (jan29 + 5000000000) 2 30 = Ok slots
       /\ len slots = 24 * Z.max 0 2
       /\ forall k, Z.of_nat k < 24 * 2 ->
                    nth_error slots k = Some (slot_at (jan29 + 5000000000) 30 k).
Proof.
  split; [repeat split; vm_compute; discriminate|].
  apply (generate_time_slots_grid (jan29 + 5000000000) 2 30);
    vm_compute; discriminate.
Defined.


Lemma create_test_events_generated_witness :
  (50 <> 0 /\ generate_time_slots jan29 1 30 = Ok day_slots)
  /\ exists m' c e,
       create_test_events picky_post_event five_attendees day_slots "TEST_502_"
                          50 empty_mailbox
       = (m', Ok (VDict [("created", VInt c); ("errors", VInt e)]))
       /\ c + e = len five_attendees * len day_slots
       /\ len (mb_posted m')
          = len (mb_posted empty_mailbox) + len five_attendees * len day_slots.
Proof.
  split; [split; [discriminate|vm_compute; reflexivity]|].
  apply (create_test_events_generated picky_post_event "TEST_502_" 50
           five_attendees jan29 1 30 day_slots empty_mailbox);
    [discriminate|vm_compute; reflexivity].
Defined.

Lemma chunk_dates_nonpositive_days_witness :
  (0 <= jan11_0001 /\ jan11_0001 < jan12_0001 /\ jan12_0001 <= datetime_max
   /\ -3 <= 0)
  /\ (-3 = 0 ->
      forall fuel, chunk_dates fuel jan11_0001 jan12_0001 (-3) = OutOfFuel)
  /\ (-3 < 0 ->
      forall fuel,
        (Z.to_nat (jan11_0001 / (- -3 * US_PER_DAY)) < fuel)%nat ->
        exists e,
          exn_class e = "OverflowError"
          /\ chunk_dates fuel jan11_0001 jan12_0001 (-3) = Raise e).
Proof.
  split; [repeat split; vm_compute; (reflexivity || discriminate)|].
  apply (chunk_dates_nonpositive_days jan11_0001 jan12_0001 (-3));
    vm_compute; (reflexivity || discriminate).
Defined.

Lemma run_mitigation_nonpositive_batch_witness :
  -1 <= 0
  /\ (-1 = 0 ->
      run_mitigation flaky_post quiet_save_raw 11 five_attendees jan29 feb28
                     (-1) 3 60 50 fresh
      = (fresh, Raise (ValueError "range() arg 3 must not be zero")))
  /\ (-1 < 0 ->
      forall chunks,
        chunk_dates 11 jan29 feb28 3 = Ok chunks ->
        run_mitigation flaky_post quiet_save_raw 11 five_attendees jan29 feb28
                       (-1) 3 60 50 fresh
        = (fresh, Ok (VDict [("total_calls", VInt 0); ("successful", VInt 0);
                             ("failed", VInt 0); ("success_rate", VInt 0);
                             ("results", VList [])]))).
Proof.
  split; [discriminate|].
  apply (run_mitigation_nonpositive_batch flaky_post quiet_save_raw 11
           five_attendees jan29 feb28 (-1) 3 60 50 fresh).
  discriminate.
Defined.

Lemma test_mitigation_effectiveness_calls_witness :
  (load_test_attendees padded_environ = Ok two_attendees /\ (10 < 11)%nat)
  /\ exists s' report,
       test_mitigation_effectiveness flaky_post quiet_save_raw padded_environ
                                     11 fresh
       = (s', Ok report)
       /\ getitem report "total_calls"
          = Ok (VInt ((len two_attendees + 4) / 5 * 10))
       /\ len (issued s') = len (issued fresh) + (len two_attendees + 4) / 5 * 10.
Proof.
  split; [split; [reflexivity|repeat constructor]|].
  apply (test_mitigation_effectiveness_calls flaky_post quiet_save_raw
           padded_environ two_attendees 11 fresh);
    [reflexivity|repeat constructor].
Defined.

Lemma reproduce_bad_gateway_single_call_witness :
  load_test_attendees padded_environ = Ok two_attendees
  /\ exists s1 v,
       call_findmeetingtimes down_post quiet_save_raw two_attendees
                             "2026-01-29T00:00:00" "2026-12-30T00:00:00"
                             10 1600 true fresh = (s1, Ok v)
       /\ issued s1
          = (issued fresh ++ [build_request two_attendees "2026-01-29T00:00:00"
                                            "2026-12-30T00:00:00" 10 1600])%list
       /\ reproduce_bad_gateway down_post quiet_save_raw quiet_save_result
                                padded_environ fresh
          = (mkSession (fst (quiet_save_result (world s1) v)) (issued s1),
             match snd (quiet_save_result (world s1) v) with
             | Some e => Raise e
             | None => Ok v
             end).
Proof.
  split; [reflexivity|].
  apply (reproduce_bad_gateway_single_call down_post quiet_save_raw
           quiet_save_result padded_environ two_attendees fresh).
  reflexivity.
Defined.

Lemma batch_attendees_count_witness :
  0 < 2
  /\ exists parts,
       batch_attendees five_attendees 2 = Ok parts
       /\ len parts = (len five_attendees + 2 - 1) / 2.
Proof.
  split; [reflexivity|]. apply (batch_attendees_count five_attendees 2).
  reflexivity.
Defined.

Lemma create_events_main_posts_witness :
  (0 <= jan29
   /\ replace_midnight jan29 + 59 * US_PER_DAY + 23 * US_PER_HOUR
      + 30 * US_PER_MINUTE <= datetime_max)
  /\ (forall e,
         get_app_client strict_new_client app_environ = Raise e ->
         create_events_main picky_post_event strict_new_client app_environ jan29
                            empty_mailbox
         = (empty_mailbox, Raise e))
  /\ (get_app_client strict_new_client app_environ = Ok tt ->
      (forall attendees,
          load_test_attendees app_environ = Ok attendees ->
          exists m',
            create_events_main picky_post_event strict_new_client app_environ
                               jan29 empty_mailbox
            = (m', Ok tt)
            /\ len (mb_posted m')
               = len (mb_posted empty_mailbox) + 1440 * len attendees)
      /\ (forall e,
             load_test_attendees app_environ = Raise e ->
             create_events_main picky_post_event strict_new_client app_environ
                                jan29 empty_mailbox
             = (empty_mailbox, Raise e))).
Proof.
  split; [split; vm_compute; discriminate|].
  apply (create_events_main_posts picky_post_event strict_new_client
           app_environ jan29 empty_mailbox); vm_compute; discriminate.
Defined.
